(** * Kitsune Finance: the ForexFactory economic-calendar parser and the
      economics upsert, embedded in Rocq.

    The development follows the Python sources
    [app/jobs/parsers/forexfactory.py] (table extractor, date resolver,
    time parser, impact classifier, row scan) and
    [app/storage/queries.py] ([write_economics_calendar]).

    Python values are modelled as follows.
    - [str] is [string]; a character is a code point below 256.
    - An exception is a constructor of [exn]; a function that may raise
      returns a [result].
    - [datetime.date], [datetime.time] and aware UTC [datetime.datetime]
      values are records over [Z]; microseconds are always zero in this
      program and are left out.
    - An lxml element is a tree [Element] carrying tag, attributes, text,
      children and tail, the parts of the tree the parser reads.
    - The [economics_calendar] table is a finite map from its conflict
      key [(day, event)] to the remaining columns. *)

From Stdlib Require Import ZArith List String Ascii Bool Lia.
From stdpp Require Import base option countable gmap strings.
Import ListNotations.

Local Open Scope string_scope.
Local Open Scope Z_scope.

(** ** Exceptions *)

Inductive exn : Type :=
| ValueError
| OverflowError
| ParserError.

Inductive result (A : Type) : Type :=
| Ok (a : A)
| Raise (e : exn).

Arguments Ok {A} a.
Arguments Raise {A} e.

#[global] Instance result_ret : MRet result := fun A a => Ok a.

#[global] Instance result_bind : MBind result := fun A B f r =>
  match r with
  | Ok a => f a
  | Raise e => Raise e
  end.

(** ** Python [str] methods used by the parser *)

Module Str.

(** [str.isspace] on one character (also the class [\s] of [re] on
    [str] patterns): 9..13, 28..32, 0x85 and 0xA0. *)
Definition isspace (c : ascii) : bool :=
  let n := N_of_ascii c in
  (((9 <=? n) && (n <=? 13)) || ((28 <=? n) && (n <=? 32))
   || (n =? 133) || (n =? 160))%N.

(** [str.lower] on one character: A..Z and the Latin-1 capitals
    0xC0..0xDE (except the multiplication sign 0xD7). *)
Definition lower_char (c : ascii) : ascii :=
  let n := N_of_ascii c in
  if (((65 <=? n) && (n <=? 90))
      || ((192 <=? n) && (n <=? 222) && negb (n =? 215)))%N
  then ascii_of_N (n + 32) else c.

Fixpoint lower (s : string) : string :=
  match s with
  | EmptyString => EmptyString
  | String c s' => String (lower_char c) (lower s')
  end.

Fixpoint lstrip (s : string) : string :=
  match s with
  | EmptyString => EmptyString
  | String c s' => if isspace c then lstrip s' else s
  end.

Fixpoint rstrip (s : string) : string :=
  match s with
  | EmptyString => EmptyString
  | String c s' =>
      match rstrip s' with
      | EmptyString => if isspace c then EmptyString else String c EmptyString
      | r => String c r
      end
  end.

Definition strip (s : string) : string := rstrip (lstrip s).

(** [s.startswith(p)] *)
Definition startswith (s p : string) : bool := String.prefix p s.

(** [sep.split()]-style tokenisation: maximal runs of characters that
    are not separators.  [split_on sp cur s] carries the token being
    read in [cur], reversed. *)
Fixpoint split_on (sp : ascii -> bool) (cur : list ascii) (s : string)
  : list string :=
  let flush (rest : list string) :=
    match cur with
    | [] => rest
    | _ => string_of_list_ascii (rev cur) :: rest
    end in
  match s with
  | EmptyString => flush []
  | String c s' =>
      if sp c then flush (split_on sp [] s')
      else split_on sp (c :: cur) s'
  end.

(** [s.split()] *)
Definition split (s : string) : list string := split_on isspace [] s.

(** [s.rsplit(sep, 1)[-1]] for a one-character [sep]: the text after
    the last [sep], or all of [s] when [sep] does not occur. *)
Fixpoint rsplit1_last (sep : ascii) (s : string) : string :=
  match s with
  | EmptyString => EmptyString
  | String c s' =>
      if existsb (Ascii.eqb sep) (list_ascii_of_string s')
      then rsplit1_last sep s'
      else if Ascii.eqb c sep then s' else s
  end.

(** Truthiness of an optional string: [None] and [""] are falsy. *)
Definition truthy (o : option string) : option string :=
  match o with
  | Some EmptyString => None
  | _ => o
  end.

End Str.

(** ** [datetime]: dates, times and UTC instants *)

Record date : Type := mkdate { year : Z; month : Z; day : Z }.

Record time : Type := mktime { hour : Z; minute : Z; second : Z }.

(** The fields of a datetime.  The instants the parser emits are aware
    datetimes whose [tzinfo] is [timezone.utc]. *)
Record datetime : Type := mkdatetime { dt_date : date; dt_time : time }.

Definition MINYEAR : Z := 1.
Definition MAXYEAR : Z := 9999.
Definition MAXORDINAL : Z := 3652059.

Definition is_leap (y : Z) : bool :=
  (y mod 4 =? 0) && (negb (y mod 100 =? 0) || (y mod 400 =? 0)).

Definition days_in_month (y m : Z) : Z :=
  if m =? 2 then (if is_leap y then 29 else 28)
  else if (m =? 4) || (m =? 6) || (m =? 9) || (m =? 11) then 30
  else 31.

(** Days before January 1st of year [y]. *)
Definition days_before_year (y : Z) : Z :=
  let y1 := y - 1 in
  y1 * 365 + y1 / 4 - y1 / 100 + y1 / 400.

(** Days in year [y] before the first day of month [m]. *)
Definition days_before_month (y m : Z) : Z :=
  let base :=
    match m with
    | 1 => 0 | 2 => 31 | 3 => 59 | 4 => 90 | 5 => 120 | 6 => 151
    | 7 => 181 | 8 => 212 | 9 => 243 | 10 => 273 | 11 => 304 | _ => 334
    end in
  if (2 <? m) && is_leap y then base + 1 else base.

Definition ymd_to_ord (y m d : Z) : Z :=
  days_before_year y + days_before_month y m + d.

(** [date.toordinal()]: 0001-01-01 is day 1. *)
Definition toordinal (d : date) : Z := ymd_to_ord (year d) (month d) (day d).

(** [date.fromordinal] without its range check ([ord_to_ymd]). *)
Definition ord_to_ymd (ordinal : Z) : date :=
  let n := ordinal - 1 in
  let n400 := n / 146097 in
  let n := n mod 146097 in
  let n100 := n / 36524 in
  let n := n mod 36524 in
  let n4 := n / 1461 in
  let n := n mod 1461 in
  let n1 := n / 365 in
  let n := n mod 365 in
  let y := n400 * 400 + 1 + n100 * 100 + n4 * 4 + n1 in
  if (n1 =? 4) || (n100 =? 4) then mkdate (y - 1) 12 31
  else
    let leapyear := (n1 =? 3) && (negb (n4 =? 24) || (n100 =? 3)) in
    let m := Z.shiftr (n + 50) 5 in
    let preceding :=
      days_before_month 1 m + (if (2 <? m) && leapyear then 1 else 0) in
    if n <? preceding then
      let m' := m - 1 in
      let preceding' :=
        preceding
        - (days_in_month 1 m' + (if (m' =? 2) && leapyear then 1 else 0)) in
      mkdate y m' (n - preceding' + 1)
    else mkdate y m (n - preceding + 1).

(** The check made by the [date(year, month, day)] constructor. *)
Definition valid_ymd (y m d : Z) : bool :=
  (MINYEAR <=? y) && (y <=? MAXYEAR) && (1 <=? m) && (m <=? 12)
  && (1 <=? d) && (d <=? days_in_month y m).

Definition valid_date (d : date) : bool :=
  valid_ymd (year d) (month d) (day d).

Definition date_new (y m d : Z) : result date :=
  if valid_ymd y m d then Ok (mkdate y m d) else Raise ValueError.

(** [d.replace(year=y)] *)
Definition replace_year (d : date) (y : Z) : result date :=
  date_new y (month d) (day d).

(** [(a - b).days] *)
Definition days_between (a b : date) : Z := toordinal a - toordinal b.

(** [time.min] *)
Definition time_min : time := mktime 0 0 0.

Definition valid_time (t : time) : bool :=
  (0 <=? hour t) && (hour t <? 24) && (0 <=? minute t) && (minute t <? 60)
  && (0 <=? second t) && (second t <? 60).

(** [datetime.combine(d, t, tzinfo=...)] *)
Definition combine (d : date) (t : time) : datetime := mkdatetime d t.

(** Day normalisation after datetime arithmetic ([normalize_y_m_d] of
    the datetime module): one day out of range steps to the neighbouring
    month, anything further goes through the ordinal; a date outside the
    supported years raises [OverflowError]. *)
Definition normalize_y_m_d (y m d : Z) : result date :=
  let dim := days_in_month y m in
  let in_range (x : date) : result date :=
    if (MINYEAR <=? year x) && (year x <=? MAXYEAR) then Ok x
    else Raise OverflowError in
  if (d <? 1) || (dim <? d) then
    if d =? 0 then
      if 0 <? m - 1 then in_range (mkdate y (m - 1) (days_in_month y (m - 1)))
      else in_range (mkdate (y - 1) 12 31)
    else if d =? dim + 1 then
      if 12 <? m + 1 then in_range (mkdate (y + 1) 1 1)
      else in_range (mkdate y (m + 1) 1)
    else
      let ordinal := ymd_to_ord y m 1 + d - 1 in
      if (ordinal <? 1) || (MAXORDINAL <? ordinal) then Raise OverflowError
      else in_range (ord_to_ymd ordinal)
  else in_range (mkdate y m d).

(** [dt - timedelta(seconds=off)] on the fields of [dt]. *)
Definition sub_seconds (dt : datetime) (off : Z) : result datetime :=
  let t := dt_time dt in
  let total := hour t * 3600 + minute t * 60 + second t - off in
  let carry := total / 86400 in
  let s := total mod 86400 in
  d ← normalize_y_m_d (year (dt_date dt)) (month (dt_date dt))
        (day (dt_date dt) + carry);
  Ok (mkdatetime d (mktime (s / 3600) ((s mod 3600) / 60) (s mod 60))).


(** ** [re]: backtracking matchers for the [strptime] patterns *)

Module Re.

(** A matcher lists its matches at the start of the input, the
    preferred one first, each with the input that remains; this is the
    order in which a backtracking engine tries them. *)
Definition matcher (A : Type) : Type := string -> list (A * string).

Definition pure {A} (a : A) : matcher A := fun s => [(a, s)].

Definition fail {A} : matcher A := fun _ => [].

(** [p|q] *)
Definition alt {A} (p q : matcher A) : matcher A := fun s => (p s ++ q s)%list.

(** [pq], the value of [p] being passed on *)
Definition seq {A B} (p : matcher A) (f : A -> matcher B) : matcher B :=
  fun s => flat_map (fun ar => f (fst ar) (snd ar)) (p s).

(** A literal character under [re.IGNORECASE]; [c] is lower case. *)
Definition lit (c : ascii) : matcher unit := fun s =>
  match s with
  | String x s' => if Ascii.eqb (Str.lower_char x) c then [(tt, s')] else []
  | EmptyString => []
  end.

Fixpoint word (w : string) : matcher unit :=
  match w with
  | EmptyString => pure tt
  | String c w' => seq (lit c) (fun _ => word w')
  end.

(** The class [[lo-hi]] of decimal digits; [\d] is [digit 0 9].  The
    value is the digit read. *)
Definition digit (lo hi : Z) : matcher Z := fun s =>
  match s with
  | String x s' =>
      let v := Z.of_N (N_of_ascii x) - 48 in
      if (lo <=? v) && (v <=? hi) then [(v, s')] else []
  | EmptyString => []
  end.

(** [\s+], greedy: the longest run first. *)
Fixpoint spaces1 (s : string) : list (unit * string) :=
  match s with
  | String x s' => if Str.isspace x then (spaces1 s' ++ [(tt, s')])%list else []
  | EmptyString => []
  end.

(** [(w0|w1|...)], the value being the index of the word, from [i]. *)
Fixpoint one_of (ws : list string) (i : Z) : matcher Z :=
  match ws with
  | [] => fail
  | w :: ws' => alt (seq (word w) (fun _ => pure i)) (one_of ws' (i + 1))
  end.

(** [regex.match(data)] followed by the check of [_strptime] that the
    match reached the end of the data. *)
Definition match_all {A} (p : matcher A) (data : string) : result A :=
  match p data with
  | [] => Raise ValueError
  | (a, EmptyString) :: _ => Ok a
  | (_, String _ _) :: _ => Raise ValueError
  end.

End Re.

(** ** [datetime.strptime] *)

Module Strptime.
Import Re.

(** The groups a match of the format expression binds. *)
Record found : Type := mkfound {
  f_a : option Z;   (* weekday, 0 = Monday *)
  f_b : option Z;   (* month, 1..12 *)
  f_d : option Z;   (* day of the month *)
  f_I : option Z;   (* hour on the 12-hour clock *)
  f_M : option Z;   (* minute *)
  f_p : option Z    (* 0 = AM, 1 = PM *)
}.

Definition found_empty : found := mkfound None None None None None None.

Definition a_weekday : list string :=
  ["mon"; "tue"; "wed"; "thu"; "fri"; "sat"; "sun"].

Definition a_month : list string :=
  ["jan"; "feb"; "mar"; "apr"; "may"; "jun";
   "jul"; "aug"; "sep"; "oct"; "nov"; "dec"].

Definition am_pm : list string := ["am"; "pm"].

(** [3[0-1]|[1-2]\d|0[1-9]|[1-9]| [1-9]] *)
Definition re_d : matcher Z :=
  alt (seq (lit "3") (fun _ => seq (digit 0 1) (fun u => pure (30 + u))))
 (alt (seq (digit 1 2) (fun t => seq (digit 0 9) (fun u => pure (10 * t + u))))
 (alt (seq (lit "0") (fun _ => digit 1 9))
 (alt (digit 1 9)
      (seq (lit " ") (fun _ => digit 1 9))))).

(** [1[0-2]|0[1-9]|[1-9]] *)
Definition re_I : matcher Z :=
  alt (seq (lit "1") (fun _ => seq (digit 0 2) (fun u => pure (10 + u))))
 (alt (seq (lit "0") (fun _ => digit 1 9))
      (digit 1 9)).

(** [[0-5]\d|\d] *)
Definition re_M : matcher Z :=
  alt (seq (digit 0 5) (fun t => seq (digit 0 9) (fun u => pure (10 * t + u))))
      (digit 0 9).

(** The expression of one directive, storing its group. *)
Definition directive (c : ascii) : option (found -> matcher found) :=
  if Ascii.eqb c "a" then
    Some (fun f => seq (one_of a_weekday 0) (fun v =>
      pure (mkfound (Some v) (f_b f) (f_d f) (f_I f) (f_M f) (f_p f))))
  else if Ascii.eqb c "b" then
    Some (fun f => seq (one_of a_month 1) (fun v =>
      pure (mkfound (f_a f) (Some v) (f_d f) (f_I f) (f_M f) (f_p f))))
  else if Ascii.eqb c "d" then
    Some (fun f => seq re_d (fun v =>
      pure (mkfound (f_a f) (f_b f) (Some v) (f_I f) (f_M f) (f_p f))))
  else if Ascii.eqb c "I" then
    Some (fun f => seq re_I (fun v =>
      pure (mkfound (f_a f) (f_b f) (f_d f) (Some v) (f_M f) (f_p f))))
  else if Ascii.eqb c "M" then
    Some (fun f => seq re_M (fun v =>
      pure (mkfound (f_a f) (f_b f) (f_d f) (f_I f) (Some v) (f_p f))))
  else if Ascii.eqb c "p" then
    Some (fun f => seq (one_of am_pm 0) (fun v =>
      pure (mkfound (f_a f) (f_b f) (f_d f) (f_I f) (f_M f) (Some v))))
  else None.

(** [TimeRE.pattern]: a run of white space in the format becomes
    [\s+], a directive its expression, any other character stands for
    itself.  [ws] tells that the previous format character was white
    space.  [None] is a stray [%] or a directive this model does not
    know. *)
Fixpoint pattern (fmt : string) (ws : bool)
  : option (found -> matcher found) :=
  match fmt with
  | EmptyString => Some pure
  | String c rest =>
      if Ascii.eqb c "%" then
        match rest with
        | String c' rest' =>
            match directive c', pattern rest' false with
            | Some m, Some k => Some (fun f => seq (m f) k)
            | _, _ => None
            end
        | EmptyString => None
        end
      else
        match pattern rest (Str.isspace c) with
        | Some k =>
            if Str.isspace c then
              if ws then Some k else Some (fun f => seq spaces1 (fun _ => k f))
            else Some (fun f => seq (lit (Str.lower_char c)) (fun _ => k f))
        | None => None
        end
  end.

(** The hour of a 12-hour clock reading: 12 AM is 0, 12 PM is 12; a
    missing AM/PM group counts as AM. *)
Definition hour24 (I : Z) (p : option Z) : Z :=
  match p with
  | Some 1 => if I =? 12 then 12 else I + 12
  | _ => if I =? 12 then 0 else I
  end.

(** [datetime.strptime(data, fmt)]: year 1900, January 1st and
    midnight are the defaults of the fields the format leaves out. *)
Definition strptime (data fmt : string) : result datetime :=
  match pattern fmt false with
  | None => Raise ValueError
  | Some p =>
      f ← match_all (p found_empty) data;
      d ← date_new 1900 (default 1 (f_b f)) (default 1 (f_d f));
      Ok (mkdatetime d
            (mktime (match f_I f with Some i => hour24 i (f_p f) | None => 0 end)
                    (default 0 (f_M f)) 0))
  end.

End Strptime.

(** ** lxml elements *)

#[warnings="-register-all"]
Inductive Element : Type :=
  mkElement {
    el_tag : string;
    el_attrib : list (string * string);
    el_text : string;               (* text before the first child *)
    el_children : list Element;
    el_tail : string                (* text after the closing tag *)
  }.

Module Lxml.

(** [el.get(name)] *)
Fixpoint get (attrs : list (string * string)) (name : string)
  : option string :=
  match attrs with
  | [] => None
  | (k, v) :: attrs' => if String.eqb k name then Some v else get attrs' name
  end.

(** The element and its descendants, in document order. *)
Fixpoint descendants_or_self (e : Element) : list Element :=
  e :: flat_map descendants_or_self (el_children e).

(** [el.iter(tag)] *)
Definition iter (e : Element) (tag : string) : list Element :=
  List.filter (fun x => String.eqb (el_tag x) tag) (descendants_or_self e).

(** [el.text_content()]: the text nodes below [e], concatenated. *)
Fixpoint text_content (e : Element) : string :=
  String.append (el_text e)
    (String.concat ""
       (map (fun c => String.append (text_content c) (el_tail c))
            (el_children e))).

(** White space of XPath [normalize-space]. *)
Definition xml_space (c : ascii) : bool :=
  let n := N_of_ascii c in ((n =? 32) || (n =? 9) || (n =? 13) || (n =? 10))%N.

(** The test of [find_class]: the class attribute, split at XML white
    space, has [name] among its words. *)
Definition has_class (name : string) (e : Element) : bool :=
  match get (el_attrib e) "class" with
  | Some v => existsb (String.eqb name) (Str.split_on xml_space [] v)
  | None => false
  end.

(** [el.find_class(name)] *)
Definition find_class (e : Element) (name : string) : list Element :=
  List.filter (has_class name) (descendants_or_self e).

(** Iterating [el.classes]: the words of the class attribute. *)
Definition classes (e : Element) : list string :=
  Str.split (default "" (get (el_attrib e) "class")).

(** [doc.xpath('//tr[@data-event-id]')] *)
Definition xpath_tr_data_event_id (doc : Element) : list Element :=
  List.filter
    (fun x => String.eqb (el_tag x) "tr"
              && match get (el_attrib x) "data-event-id" with
                 | Some _ => true
                 | None => false
                 end)
    (descendants_or_self doc).

End Lxml.

(** ** [app/jobs/parsers/forexfactory.py] *)

(** The dictionary the parser emits for one row. *)
Record Event : Type := mkEvent {
  ev_date : option datetime;
  ev_is_all_day : bool;
  ev_currency : option string;
  ev_impact : option string;
  ev_event : option string;
  ev_actual : option string;
  ev_forecast : option string;
  ev_previous : option string
}.

(** The variables of the row loop. *)
Record scan_state : Type := mkstate {
  events : list Event;
  current_date : option date;
  current_time_str : option string
}.

Definition _IMPACT_MAP : gmap string string :=
  list_to_map
    [("red", "High"); ("ora", "Medium"); ("yel", "Low"); ("gra", "Non-Economic")].

(** Return stripped text_content of [el], or None if blank/missing. *)
Definition _text (el : option Element) : option string :=
  match el with
  | None => None
  | Some el => Str.truthy (Some (Str.strip (Lxml.text_content el)))
  end.

(** The inner loop of [_impact_label] over the classes of one span:
    [Some r] when the loop returned [r], [None] when it ran out. *)
Fixpoint impact_of_classes (clss : list string) : option (option string) :=
  match clss with
  | [] => None
  | cls :: clss' =>
      if Str.startswith cls "icon--ff-impact-" then
        let suffix := Str.rsplit1_last "-" cls in
        Some (_IMPACT_MAP !! suffix)
      else impact_of_classes clss'
  end.

(** The outer loop of [_impact_label] over the spans. *)
Fixpoint impact_of_spans (spans : list Element) : option string :=
  match spans with
  | [] => None
  | span :: spans' =>
      match impact_of_classes (Lxml.classes span) with
      | Some r => r
      | None => impact_of_spans spans'
      end
  end.

(** Extract impact level from the icon class on the <span> inside [td]. *)
Definition _impact_label (td : Element) : option string :=
  impact_of_spans (Lxml.iter td "span").

Section Parser.

(** [lxml.html.fromstring] and [lxml.html.tostring]. *)
Variable fromstring : string -> result Element.
Variable tostring : Element -> string.

(** [date.today()]. *)
Variable today : date.

(** The UTC offset, in seconds, that [ZoneInfo("Europe/Berlin")] gives
    to a local date and time of day. *)
Variable _CET : date -> time -> Z.

Definition extract_calendar_table (page_html : string) : result string :=
  doc ← fromstring page_html;
  let tables := Lxml.find_class doc "calendar__table" in
  match tables with
  | [] => Raise ValueError
  | tables0 :: _ => Ok (tostring tables0)
  end.

Definition _resolve_date (raw : string) : result date :=
  parsed ← Strptime.strptime raw "%a %b %d";
  let parsed := dt_date parsed in
  candidate ← replace_year parsed (year today);
  let delta := days_between candidate today in
  if 90 <? delta then replace_year candidate (year today - 1)
  else if delta <? -270 then replace_year candidate (year today + 1)
  else Ok candidate.

(** The loop of [_parse_time] over the formats: a [ValueError] moves
    on to the next format, any other exception propagates. *)
Fixpoint parse_time_formats (raw : string) (fmts : list string)
  : result (option time) :=
  match fmts with
  | [] => Ok None
  | fmt :: fmts' =>
      match Strptime.strptime raw fmt with
      | Ok dt => Ok (Some (dt_time dt))
      | Raise ValueError => parse_time_formats raw fmts'
      | Raise e => Raise e
      end
  end.

Definition _parse_time (raw : option string) : result (option time) :=
  match Str.truthy raw with
  | None => Ok None
  | Some raw =>
      let raw := Str.lower (Str.strip raw) in
      parse_time_formats raw ["%I:%M%p"; "%I:%M %p"]
  end.

(** [_text(row.find_class(cls)[0]) if row.find_class(cls) else None] *)
Definition first_text (row : Element) (cls : string) : option string :=
  match Lxml.find_class row cls with
  | td0 :: _ => _text (Some td0)
  | [] => None
  end.

(** The build-full-datetime step of the row loop: [(is_all_day,
    event_dt)] from the two loop variables. *)
Definition build_datetime (current_date : option date)
    (current_time_str : option string) : result (bool * option datetime) :=
  match current_date with
  | Some current_date =>
      parsed_time ← _parse_time current_time_str;
      match parsed_time with
      | None => Ok (true, Some (combine current_date time_min))
      | Some parsed_time =>
          event_dt ← sub_seconds (combine current_date parsed_time)
                                 (_CET current_date parsed_time);
          Ok (false, Some event_dt)
      end
  | None => Ok (false, None)
  end.

(** One iteration of the row loop of [parse_economic_calendar]. *)
Definition scan_row (st : scan_state) (row : Element) : result scan_state :=
  (* date (only present on first row of each day) *)
  carried ←
    match Lxml.find_class row "calendar__date" with
    | date_td0 :: _ =>
        match _text (Some date_td0) with
        | Some raw =>
            d ← _resolve_date raw;
            Ok (Some d, None)
        | None => Ok (current_date st, current_time_str st)
        end
    | [] => Ok (current_date st, current_time_str st)
    end;
  let current_date := fst carried in
  let current_time_str := snd carried in
  (* time (empty means same as previous row) *)
  let current_time_str :=
    match Lxml.find_class row "calendar__time" with
    | time_td0 :: _ =>
        match _text (Some time_td0) with
        | Some t => Some t
        | None => current_time_str
        end
    | [] => current_time_str
    end in
  let currency := first_text row "calendar__currency" in
  let impact :=
    match Lxml.find_class row "calendar__impact" with
    | imp_td0 :: _ => _impact_label imp_td0
    | [] => None
    end in
  let event_name := first_text row "calendar__event-title" in
  let actual := first_text row "calendar__actual" in
  let forecast := first_text row "calendar__forecast" in
  let previous := first_text row "calendar__previous" in
  (* build full datetime *)
  built ← build_datetime current_date current_time_str;
  Ok (mkstate
        (events st ++
           [mkEvent (snd built) (fst built) currency impact event_name
                    actual forecast previous])
        current_date current_time_str).

(** The row loop. *)
Fixpoint scan_rows (st : scan_state) (rows : list Element)
  : result scan_state :=
  match rows with
  | [] => Ok st
  | row :: rows' =>
      st' ← scan_row st row;
      scan_rows st' rows'
  end.

Definition parse_economic_calendar (raw_html : string)
  : result (list Event) :=
  doc ← fromstring raw_html;
  let rows := Lxml.xpath_tr_data_event_id doc in
  st ← scan_rows (mkstate [] None None) rows;
  Ok (events st).

End Parser.

(** ** [app/storage/queries.py]: the economics upsert *)

#[global] Instance date_eq_dec : EqDecision date.
Proof. solve_decision. Defined.

#[global] Program Instance date_countable : Countable date :=
  inj_countable' (fun d => (year d, month d, day d))
                 (fun t => mkdate (fst (fst t)) (snd (fst t)) (snd t)) _.
Next Obligation. intros [y m d]; reflexivity. Qed.

(** The columns of [economics_calendar] outside its conflict key. *)
Inductive column : Type :=
| Time | Currency | Impact | Actual | Forecast | Previous.

Record econ_row : Type := mkrow {
  r_time : option string;
  r_currency : option string;
  r_impact : option string;
  r_actual : option string;
  r_forecast : option string;
  r_previous : option string
}.

Definition col (c : column) (r : econ_row) : option string :=
  match c with
  | Time => r_time r
  | Currency => r_currency r
  | Impact => r_impact r
  | Actual => r_actual r
  | Forecast => r_forecast r
  | Previous => r_previous r
  end.

(** The table, keyed by the columns of [ON CONFLICT (day, event)]. *)
Abbreviation economics_calendar := (gmap (date * string) econ_row).

(** SQL [COALESCE(a, b)] *)
Definition COALESCE (a b : option string) : option string :=
  match a with
  | Some _ => a
  | None => b
  end.

(** The row proposed for insertion, [EXCLUDED]: the values [ev.get(...)]
    bound to the statement.  [ev] holds the entries of the dictionary
    whose value is not [None]; [ev.get] cannot tell the others apart
    from missing keys. *)
Definition EXCLUDED (ev : gmap string string) : econ_row :=
  mkrow (ev !! "time") (ev !! "currency") (ev !! "impact")
        (ev !! "actual") (ev !! "forecast") (ev !! "previous").

(** The [DO UPDATE SET] list. *)
Definition do_update (excluded old : econ_row) : econ_row :=
  mkrow (COALESCE (r_time excluded) (r_time old))
        (COALESCE (r_currency excluded) (r_currency old))
        (COALESCE (r_impact excluded) (r_impact old))
        (COALESCE (r_actual excluded) (r_actual old))
        (COALESCE (r_forecast excluded) (r_forecast old))
        (COALESCE (r_previous excluded) (r_previous old)).

(** [INSERT ... ON CONFLICT (day, event) DO UPDATE SET ...] *)
Definition insert_on_conflict (day : date) (event : string)
    (excluded : econ_row) (tbl : economics_calendar) : economics_calendar :=
  match tbl !! (day, event) with
  | Some old => <[(day, event) := do_update excluded old]> tbl
  | None => <[(day, event) := excluded]> tbl
  end.

(** The body of the inner loop: an event without a name is skipped. *)
Definition write_event (day : date) (tbl : economics_calendar)
    (ev : gmap string string) : economics_calendar :=
  match Str.truthy (ev !! "event") with
  | None => tbl
  | Some event_name => insert_on_conflict day event_name (EXCLUDED ev) tbl
  end.

Definition write_economics_calendar
    (data : list (date * list (gmap string string)))
    (tbl : economics_calendar) : economics_calendar :=
  fold_left (fun tbl day_events =>
               fold_left (write_event (fst day_events)) (snd day_events) tbl)
            data tbl.

(** ** Reference definitions and sample inputs *)

(** The impact classification in the words of the specification: the
    suffix is the text that follows ["icon--ff-impact-"] in the first
    class name of that form. *)
Definition pattern_suffix (cls : string) : string :=
  substring 16 (String.length cls - 16) cls.

Definition impact_label_by_pattern (td : Element) : option string :=
  match find (fun cls => Str.startswith cls "icon--ff-impact-")
             (flat_map Lxml.classes (Lxml.iter td "span")) with
  | Some cls => _IMPACT_MAP !! pattern_suffix cls
  | None => None
  end.

(** [<span class="cls"></span>] *)
Definition span_of_class (cls : string) : Element :=
  mkElement "span" [("class", cls)] "" [] "".

(** [<td class="calendar__cell calendar__impact">spans</td>] *)
Definition impact_td (spans : list Element) : Element :=
  mkElement "td" [("class", "calendar__cell calendar__impact")] "" spans "".

(** [<td class="cls">txt</td>] *)
Definition td_of_class (cls txt : string) : Element :=
  mkElement "td" [("class", cls)] txt [] "".

(** [<tr data-event-id="1">cells</tr>] *)
Definition event_tr (cells : list Element) : Element :=
  mkElement "tr" [("data-event-id", "1")] "" cells "".

(** [<table class="calendar__table">rows</table>] *)
Definition calendar_table (rows : list Element) : Element :=
  mkElement "table" [("class", "calendar__table")] "" rows "".

(** [<html><body>content</body></html>] *)
Definition page_of (content : list Element) : Element :=
  mkElement "html" [] "" [mkElement "body" [] "" content ""] "".

(** A stand-in for [tostring] on the sample inputs: the tag and the text
    below the element. *)
Definition show_element (e : Element) : string :=
  String.append (el_tag e) (String.append ":" (Lxml.text_content e)).

(** A table whose only event row has a time cell and no date cell. *)
Definition table_without_date : Element :=
  calendar_table [event_tr [td_of_class "calendar__time" "8:30am"]].

(** A table of three event rows; the date cell of the second does not
    read as a date. *)
Definition table_with_malformed_date : Element :=
  calendar_table
    [event_tr [td_of_class "calendar__date" "Thu Feb 26";
               td_of_class "calendar__time" "8:30am";
               td_of_class "calendar__event-title" "CPI m/m"];
     event_tr [td_of_class "calendar__date" "Tomorrow";
               td_of_class "calendar__event-title" "Bank Holiday"];
     event_tr [td_of_class "calendar__date" "Fri Feb 27";
               td_of_class "calendar__time" "2:00pm";
               td_of_class "calendar__event-title" "GDP q/q"]].

(** Three rows of one day: date and time, neither, time only. *)
Definition table_of_one_day : Element :=
  calendar_table
    [event_tr [td_of_class "calendar__date" "Thu Feb 26";
               td_of_class "calendar__time" "8:30am"];
     event_tr [td_of_class "calendar__date" "";
               td_of_class "calendar__time" " "];
     event_tr [td_of_class "calendar__time" "2:00pm"]].

(** Two rows of two days; the second has no time of its own. *)
Definition table_of_two_days : Element :=
  calendar_table
    [event_tr [td_of_class "calendar__date" "Thu Feb 26";
               td_of_class "calendar__time" "8:30am"];
     event_tr [td_of_class "calendar__date" "Fri Feb 27";
               td_of_class "calendar__time" ""]].

(** Every match of [m] binds a value satisfying [P]. *)
Definition binds {A} (P : A -> Prop) (m : Re.matcher A) : Prop :=
  forall s, Forall (fun r => P (fst r)) (m s).

(** The clock groups of a match are in range. *)
Definition clock_in_range (f : Strptime.found) : Prop :=
  (forall i, Strptime.f_I f = Some i -> 1 <= i <= 12)
  /\ (forall m, Strptime.f_M f = Some m -> 0 <= m <= 59).

(** Seconds from the midnight that begins day 0 of the ordinal count to
    the instant [dt]. *)
Definition timestamp (dt : datetime) : Z :=
  toordinal (dt_date dt) * 86400
  + hour (dt_time dt) * 3600 + minute (dt_time dt) * 60 + second (dt_time dt).

(** [date.weekday()]: Monday is 0. *)
Definition weekday (d : date) : Z := (toordinal d + 6) mod 7.

(** The last Sunday of month [m] of year [y]. *)
Definition last_sunday (y m : Z) : Z :=
  let last := days_in_month y m in
  last - (weekday (mkdate y m last) + 1) mod 7.

(** A sample instance of [_CET]: the rule of the Europe/Berlin zone
    since 1996, as [ZoneInfo] applies it to a local time with [fold=0].
    Summer time, two hours ahead of UTC, runs from 03:00 local time on
    the last Sunday of March up to 03:00 local time on the last Sunday
    of October; the offset is one hour otherwise. *)
Definition europe_berlin_utcoffset (d : date) (t : time) : Z :=
  let y := year d in
  let at_or_after (m dd h : Z) : bool :=
    (m <? month d)
    || ((m =? month d)
        && ((dd <? day d) || ((dd =? day d) && (h <=? hour t)))) in
  if at_or_after 3 (last_sunday y 3) 3
     && negb (at_or_after 10 (last_sunday y 10) 3)
  then 7200 else 3600.

(** A row with every column null. *)
Definition empty_row : econ_row := mkrow None None None None None None.

(** The effect of one event of a batch on the row stored under [k],
    [None] standing for no row. *)
Definition row_step (k : date * string) (stored : option econ_row)
    (day_ev : date * gmap string string) : option econ_row :=
  match Str.truthy (snd day_ev !! "event") with
  | Some event_name =>
      if decide (k = (fst day_ev, event_name))
      then Some (do_update (EXCLUDED (snd day_ev)) (default empty_row stored))
      else stored
  | None => stored
  end.

(** The events of a batch in the order in which they are written. *)
Definition batch_events (data : list (date * list (gmap string string)))
  : list (date * gmap string string) :=
  flat_map (fun day_events => map (pair (fst day_events)) (snd day_events))
           data.

(** Three rows with currency, impact and title cells; the third has no
    currency cell. *)
Definition table_with_fields : Element :=
  calendar_table
    [event_tr [td_of_class "calendar__date" "Thu Feb 26";
               td_of_class "calendar__time" "8:30am";
               td_of_class "calendar__currency" " USD ";
               impact_td [span_of_class "icon icon--ff-impact-red"];
               td_of_class "calendar__event-title" "CPI m/m";
               td_of_class "calendar__actual" "0.4%";
               td_of_class "calendar__forecast" "0.3%";
               td_of_class "calendar__previous" ""];
     event_tr [td_of_class "calendar__time" "";
               td_of_class "calendar__currency" "EUR";
               impact_td [span_of_class "icon icon--ff-impact-ora"];
               td_of_class "calendar__event-title" "ECB Press Conference"];
     event_tr [td_of_class "calendar__time" "All Day";
               impact_td [span_of_class "icon icon--ff-impact-gra"];
               td_of_class "calendar__event-title" "GDP q/q"]].

(** ** [app/jobs/fetch_calendars.py]: the economics sync *)

(** The response of [curl.get]: status code and body. *)
Record response : Type := mkresponse { status_code : Z; text : string }.

(** [_parse_day] on the values the parser stores under ["date"], the
    only ones [sync_economics_calendar] passes: [None] or a datetime,
    of which it takes the date. *)
Definition _parse_day (val : option datetime) : option date :=
  match val with
  | None => None
  | Some dt => Some (dt_date dt)
  end.

(** [m[k] = v] for a value that may be [None]; such an entry is left out
    of the map, as [dict.get] answers [None] for it either way. *)
Definition dict_put (k : string) (v : option string)
    (m : gmap string string) : gmap string string :=
  match v with
  | Some s => <[k := s]> m
  | None => m
  end.

(** The dictionary of an event as [write_economics_calendar] reads it.
    The parser's dictionary has no ["time"] key; its ["date"] and
    ["is_all_day"] entries are not text and the writer does not read
    them. *)
Definition event_dict (ev : Event) : gmap string string :=
  dict_put "currency" (ev_currency ev)
    (dict_put "impact" (ev_impact ev)
       (dict_put "event" (ev_event ev)
          (dict_put "actual" (ev_actual ev)
             (dict_put "forecast" (ev_forecast ev)
                (dict_put "previous" (ev_previous ev) ∅))))).

(** [by_day.setdefault(day, []).append(ev)] on a dictionary that keeps
    its keys in insertion order. *)
Fixpoint setdefault_append {A} (by_day : list (date * list A))
    (day : date) (ev : A) : list (date * list A) :=
  match by_day with
  | [] => [(day, [ev])]
  | (d, evs) :: rest =>
      if decide (d = day) then (d, (evs ++ [ev])%list) :: rest
      else (d, evs) :: setdefault_append rest day ev
  end.

(** The grouping loop of [sync_economics_calendar]: an event without an
    instant is skipped. *)
Definition group_by_day (events : list Event) : list (date * list Event) :=
  fold_left
    (fun by_day ev =>
       match _parse_day (ev_date ev) with
       | None => by_day
       | Some day => setdefault_append by_day day ev
       end)
    events [].

(** [by_day[day]], the empty list standing for a missing key. *)
Definition events_of_day {A} (by_day : list (date * list A)) (day : date)
  : list A :=
  match find (fun de => bool_decide (fst de = day)) by_day with
  | Some de => snd de
  | None => []
  end.

Section Sync.

(** [curl.get(url, impersonate="chrome")]: the response, or the
    exception of the transport. *)
Variable curl_get : result response.
Variable fromstring : string -> result Element.
Variable tostring : Element -> string.
Variable today : date.
Variable _CET : date -> time -> Z.

(** Synchronous HTTP fetch + parse. *)
Definition _fetch_economics_raw : result (list Event) :=
  resp ← curl_get;
  if negb (status_code resp =? 200) then Ok []
  else
    table ← extract_calendar_table fromstring tostring (text resp);
    parse_economic_calendar fromstring today _CET table.

(** [sync_economics_calendar] as a function of the table: every
    exception is caught and logged, and an empty list of events returns
    before anything is written. *)
Definition sync_economics_calendar (tbl : economics_calendar)
  : economics_calendar :=
  match _fetch_economics_raw with
  | Ok events =>
      match events with
      | [] => tbl
      | _ =>
          let by_day := group_by_day events in
          write_economics_calendar
            (map (fun de => (fst de, map event_dict (snd de))) by_day) tbl
      end
  | Raise _ => tbl
  end.

End Sync.

(** A sync on a page that holds [table_with_fields], fetched with
    status [status]. *)
Definition sample_sync (status : Z) (tbl : economics_calendar)
  : economics_calendar :=
  sync_economics_calendar (Ok (mkresponse status "page"))
    (fun _ => Ok (page_of [table_with_fields])) show_element
    (mkdate 2026 2 24) europe_berlin_utcoffset tbl.

(** A table holding one row, with a time, under the key of the first
    event of [table_with_fields]. *)
Definition sample_table : economics_calendar :=
  {[ (mkdate 2026 2 26, "CPI m/m") :=
       mkrow (Some "8:30am") (Some "USD") None None None (Some "0.2%") ]}.

(** ** [app/jobs/fetch_calendars.py]: the earnings fetch *)

(** [d.setdefault(k, dflt)] followed by an update in place of the value
    under [k], on a dictionary that keeps its keys in insertion order. *)
Fixpoint dict_setdefault_update {K V} `{EqDecision K}
    (d : list (K * V)) (k : K) (dflt : V) (f : V -> V) : list (K * V) :=
  match d with
  | [] => [(k, f dflt)]
  | (k0, v) :: rest =>
      if decide (k0 = k) then (k0, f v) :: rest
      else (k0, v) :: dict_setdefault_update rest k dflt f
  end.

(** [d.get(k)] *)
Fixpoint dict_get {K V} `{EqDecision K} (d : list (K * V)) (k : K)
  : option V :=
  match d with
  | [] => None
  | (k0, v) :: rest => if decide (k0 = k) then Some v else dict_get rest k
  end.

(** [a or b] on optional text: [a] when it is a non-empty string. *)
Definition py_or (a b : option string) : option string :=
  match Str.truthy a with
  | Some s => Some s
  | None => b
  end.

Section Earnings.

(** The values of the numeric columns. *)
Variable F : Type.

(** A row of the feed as [_df_to_records] returns it, NaN already
    replaced by [None]: the text columns hold a string or [None], the
    start date a timestamp or [None], the numeric columns a float or
    [None].  [rec_index] is the entry under ["index"]: [None] when the
    key is missing, else its value. *)
Record earnings_record : Type := mkrecord {
  rec_Symbol : option string;
  rec_index : option (option string);
  rec_Company : option string;
  rec_Marketcap : option F;
  rec_Event_Name : option string;
  rec_Event_Start_Date : option datetime;
  rec_Timing : option string;
  rec_EPS_Estimate : option F;
  rec_Reported_EPS : option F;
  rec_Surprise : option F
}.

(** The dictionary built for one row. *)
Record earnings_item : Type := mkitem {
  it_symbol : option string;
  it_marketcap : option F;
  it_event_name : option string;
  it_date : option datetime;
  it_timing : option string;
  it_eps_estimate : option F;
  it_reported_eps : option F;
  it_surprise_pct : option F
}.

(** [r.get("Symbol") or r.get("index", "")] *)
Definition record_symbol (r : earnings_record) : option string :=
  py_or (rec_Symbol r)
        (match rec_index r with
         | Some v => v
         | None => Some ""
         end).

(** [r.get("Company") or sym] *)
Definition record_company (r : earnings_record) : option string :=
  py_or (rec_Company r) (record_symbol r).

Definition record_item (r : earnings_record) : earnings_item :=
  mkitem (record_symbol r) (rec_Marketcap r) (rec_Event_Name r)
         (rec_Event_Start_Date r) (rec_Timing r) (rec_EPS_Estimate r)
         (rec_Reported_EPS r) (rec_Surprise r).

(** [_to_date] of [fetch_calendars.py] on the start date of an item:
    [None], or a timestamp, of which it takes the date. *)
Definition _to_date (val : option datetime) : option date :=
  match val with
  | None => None
  | Some dt => Some (dt_date dt)
  end.

(** The day-keyed, company-keyed result. *)
Definition earnings_by_day : Type :=
  list (date * list (option string * list earnings_item)).

(** The body of the loop over the records of a page. *)
Definition add_record (result : earnings_by_day) (r : earnings_record)
  : earnings_by_day :=
  let company := record_company r in
  let item := record_item r in
  match _to_date (it_date item) with
  | None => result
  | Some key =>
      dict_setdefault_update result key []
        (fun companies =>
           dict_setdefault_update companies company []
             (fun items => (items ++ [item])%list))
  end.

(** [cal.get_earnings_calendar(limit=100, offset=offset, ...)] followed
    by [_df_to_records]: [None] when the frame is [None] or empty. *)
Variable get_earnings_calendar : Z -> option (list earnings_record).

(** The paging loop, [fuel] bounding the number of requests.  Next to
    the result it returns the offsets it requested, in order. *)
Fixpoint fetch_pages (fuel : nat) (offset : Z) (result : earnings_by_day)
    (requested : list Z) : option (earnings_by_day * list Z) :=
  match fuel with
  | O => None
  | S fuel' =>
      let requested := (requested ++ [offset])%list in
      match get_earnings_calendar offset with
      | None => Some (result, requested)
      | Some records =>
          let result := fold_left add_record records result in
          if Z.of_nat (length records) <? 100 then Some (result, requested)
          else fetch_pages fuel' (offset + 100) result requested
      end
  end.

Definition _fetch_earnings_raw (fuel : nat)
  : option (earnings_by_day * list Z) :=
  fetch_pages fuel 0 [] [].

(** [result[day][company]], the empty list standing for a missing key. *)
Definition items_of (result : earnings_by_day) (day : date)
    (company : option string) : list earnings_item :=
  default [] (dict_get (default [] (dict_get result day)) company).

End Earnings.

Arguments mkrecord {F}.
Arguments mkitem {F}.

(** A feed row with a symbol, a company and a start date. *)
Definition sample_record (symbol : string) (company : option string)
    (start : option datetime) : earnings_record Z :=
  mkrecord (Some symbol) None company None (Some "Earnings Release") start
           None None None None.

(** A feed whose pages have 100, 100 and 43 rows. *)
Definition sample_feed (offset : Z) : option (list (earnings_record Z)) :=
  let r := sample_record "ACME" (Some "Acme Corp")
             (Some (mkdatetime (mkdate 2026 3 2) (mktime 21 0 0))) in
  if offset =? 0 then Some (repeat r 100)
  else if offset =? 100 then Some (repeat r 100)
  else if offset =? 200 then Some (repeat r 43)
  else None.

(** The last value of a list that is not null. *)
Definition last_some (l : list (option string)) : option string :=
  fold_left (fun acc v => COALESCE v acc) l None.

(** The value an event of the parser brings for a column. *)
Definition event_col (c : column) (ev : Event) : option string :=
  match c with
  | Time => None
  | Currency => ev_currency ev
  | Impact => ev_impact ev
  | Actual => ev_actual ev
  | Forecast => ev_forecast ev
  | Previous => ev_previous ev
  end.

(** The test that an event is written under the key [(day, title)]. *)
Definition event_has_key (day : date) (title : string) (ev : Event) : bool :=
  bool_decide (_parse_day (ev_date ev) = Some day
               /\ Str.truthy (ev_event ev) = Some title).

(** The key of the event dictionary that [write_economics_calendar]
    binds to each column: [$2 = ev.get("time")] for [time],
    [$3 = ev.get("currency")] for [currency], and so on. *)
Definition column_key (c : column) : string :=
  match c with
  | Time => "time"
  | Currency => "currency"
  | Impact => "impact"
  | Actual => "actual"
  | Forecast => "forecast"
  | Previous => "previous"
  end.

(** An event for the key of [sample_table] that brings the actual value,
    repeats the stored currency and leaves the other fields out. *)
Definition sample_update : gmap string string :=
  list_to_map [("event", "CPI m/m"); ("currency", "USD"); ("actual", "0.4%")].

(** * Properties *)

(** ** Strings *)

Lemma existsb_app_sep (sep : ascii) (pre r : string) :
  existsb (Ascii.eqb sep)
          (list_ascii_of_string (String.append pre (String sep r))) = true.
Proof.
  induction pre as [|c pre IH]; simpl.
  - rewrite Ascii.eqb_refl. reflexivity.
  - rewrite IH. apply orb_true_r.
Qed.

(** The text after the last separator. *)
Lemma rsplit1_last_app (sep : ascii) (pre r : string) :
  existsb (Ascii.eqb sep) (list_ascii_of_string r) = false ->
  Str.rsplit1_last sep (String.append pre (String sep r)) = r.
Proof.
  intros Hr. induction pre as [|c pre IH]; simpl.
  - rewrite Hr, Ascii.eqb_refl. reflexivity.
  - rewrite existsb_app_sep. exact IH.
Qed.

Lemma rsplit1_last_none (sep : ascii) (s : string) :
  existsb (Ascii.eqb sep) (list_ascii_of_string s) = false ->
  Str.rsplit1_last sep s = s.
Proof.
  destruct s as [|c s]; simpl; [reflexivity|].
  intros H. apply orb_false_iff in H as [Hc Hs]. rewrite Hs.
  rewrite Ascii.eqb_sym, Hc. reflexivity.
Qed.

Lemma rsplit1_last_no_sep (sep : ascii) (s : string) :
  existsb (Ascii.eqb sep)
          (list_ascii_of_string (Str.rsplit1_last sep s)) = false.
Proof.
  induction s as [|c s IH]; simpl; [reflexivity|].
  destruct (existsb (Ascii.eqb sep) (list_ascii_of_string s)) eqn:Hs;
    [exact IH|].
  destruct (Ascii.eqb c sep) eqn:Hc; [exact Hs|].
  simpl. rewrite Hs, Ascii.eqb_sym, Hc. reflexivity.
Qed.

Lemma find_app_list {A} (f : A -> bool) (l1 l2 : list A) :
  find f (l1 ++ l2)%list =
    match find f l1 with
    | Some x => Some x
    | None => find f l2
    end.
Proof.
  induction l1 as [|x l1 IH]; simpl; [reflexivity|].
  destruct (f x); [reflexivity | exact IH].
Qed.

(** ** The impact classifier *)

Lemma impact_map_unknown (s : string) :
  ~ In s ["red"; "ora"; "yel"; "gra"] -> _IMPACT_MAP !! s = None.
Proof.
  intros H. unfold _IMPACT_MAP. simpl.
  rewrite !lookup_insert_ne; [apply lookup_empty | | | |];
    intros <-; apply H; simpl; auto.
Qed.

Lemma impact_map_known (s v : string) :
  _IMPACT_MAP !! s = Some v ->
  (s, v) = ("red", "High") \/ (s, v) = ("ora", "Medium")
  \/ (s, v) = ("yel", "Low") \/ (s, v) = ("gra", "Non-Economic").
Proof.
  unfold _IMPACT_MAP. simpl. intros H.
  repeat (apply lookup_insert_Some in H as [[<- <-]|[_ H]]; [tauto|]).
  rewrite lookup_empty in H. discriminate.
Qed.

Lemma impact_of_classes_find (clss : list string) :
  impact_of_classes clss =
    match find (fun cls => Str.startswith cls "icon--ff-impact-") clss with
    | Some cls => Some (_IMPACT_MAP !! Str.rsplit1_last "-" cls)
    | None => None
    end.
Proof.
  induction clss as [|cls clss IH]; [reflexivity|].
  cbn [impact_of_classes find].
  destruct (Str.startswith cls "icon--ff-impact-"); [reflexivity | exact IH].
Qed.

Lemma impact_of_spans_find (spans : list Element) :
  impact_of_spans spans =
    match find (fun cls => Str.startswith cls "icon--ff-impact-")
               (flat_map Lxml.classes spans) with
    | Some cls => _IMPACT_MAP !! Str.rsplit1_last "-" cls
    | None => None
    end.
Proof.
  induction spans as [|span spans IH]; [reflexivity|].
  cbn [impact_of_spans flat_map].
  rewrite find_app_list, impact_of_classes_find.
  destruct (find _ (Lxml.classes span)); [reflexivity | exact IH].
Qed.

(** A class list whose first prefixed class is [cls]. *)
Lemma find_first_prefixed (pre post : list string) (cls : string) :
  forallb (fun c => negb (Str.startswith c "icon--ff-impact-")) pre = true ->
  Str.startswith cls "icon--ff-impact-" = true ->
  find (fun c => Str.startswith c "icon--ff-impact-")
       (pre ++ cls :: post)%list = Some cls.
Proof.
  intros Hpre Hcls. induction pre as [|c pre IH]; simpl.
  - rewrite Hcls. reflexivity.
  - simpl in Hpre. apply andb_true_iff in Hpre as [Hc Hpre].
    apply negb_true_iff in Hc. rewrite Hc. exact (IH Hpre).
Qed.

(** C9 (as stated, refuted): for the class ["icon--ff-impact-x-red"] the
    text after the prefix is ["x-red"], which is none of the four known
    suffixes, so the classification by the pattern is null; the code
    answers ["High"], because it looks up the text after the last
    hyphen. *)
Lemma impact_label_pattern_counterexample :
  let td := impact_td [span_of_class "icon icon--ff-impact-x-red"] in
  pattern_suffix "icon--ff-impact-x-red" = "x-red"
  /\ impact_label_by_pattern td = None
  /\ _impact_label td = Some "High".
Proof. vm_compute. repeat split. Qed.

(** C9 (amended): the classifier takes the first class name, over the
    span elements of the cell in document order and the classes of each
    in attribute order, that starts with ["icon--ff-impact-"], and looks
    up the text after its last hyphen in red -> High, ora -> Medium,
    yel -> Low, gra -> Non-Economic.  That text is the whole suffix when
    the suffix has no hyphen.  The result is null when no class has the
    prefix or the text is none of the four keys; the function is total,
    so there is no error path. *)
Theorem impact_label_last_segment :
  (forall td : Element,
      _impact_label td =
        match find (fun cls => Str.startswith cls "icon--ff-impact-")
                   (flat_map Lxml.classes (Lxml.iter td "span")) with
        | Some cls => _IMPACT_MAP !! Str.rsplit1_last "-" cls
        | None => None
        end)
  /\ (forall suffix : string,
         existsb (Ascii.eqb "-") (list_ascii_of_string suffix) = false ->
         Str.rsplit1_last "-" (String.append "icon--ff-impact-" suffix)
         = suffix)
  /\ _IMPACT_MAP !! "red" = Some "High"
  /\ _IMPACT_MAP !! "ora" = Some "Medium"
  /\ _IMPACT_MAP !! "yel" = Some "Low"
  /\ _IMPACT_MAP !! "gra" = Some "Non-Economic"
  /\ (forall s : string,
         ~ In s ["red"; "ora"; "yel"; "gra"] -> _IMPACT_MAP !! s = None).
Proof.
  split; [intros td; apply impact_of_spans_find|].
  split; [intros suffix H; exact (rsplit1_last_app "-" "icon--ff-impact" suffix H)|].
  repeat (split; [vm_compute; reflexivity|]).
  exact impact_map_unknown.
Qed.

(** C10 (as stated, refuted): the first class name with the prefix is
    ["icon--ff-impact-x-red"]; what follows the prefix in it, ["x-red"],
    is no key of the table, and a later span has the known suffix
    ["yel"].  The classifier does not answer null: it answers ["High"],
    the label of the text after the last hyphen. *)
Lemma first_match_suffix_counterexample :
  let td := impact_td [span_of_class "icon icon--ff-impact-x-red";
                       span_of_class "icon icon--ff-impact-yel"] in
  find (fun cls => Str.startswith cls "icon--ff-impact-")
       (flat_map Lxml.classes (Lxml.iter td "span"))
  = Some "icon--ff-impact-x-red"
  /\ pattern_suffix "icon--ff-impact-x-red" = "x-red"
  /\ _IMPACT_MAP !! "x-red" = None
  /\ _impact_label td = Some "High".
Proof. vm_compute. repeat split. Qed.

(** C10 (amended): the classifier commits to the first class name that
    starts with ["icon--ff-impact-"]: whatever classes and spans follow,
    its result is the label of the text after the last hyphen of that
    class.  When that text is none of the four keys the result is null;
    this is so in particular when what follows the prefix has no hyphen
    and is none of the four keys. *)
Theorem impact_label_first_match_wins
    (td : Element) (pre post : list string) (cls : string) :
  flat_map Lxml.classes (Lxml.iter td "span") = (pre ++ cls :: post)%list ->
  forallb (fun c => negb (Str.startswith c "icon--ff-impact-")) pre = true ->
  Str.startswith cls "icon--ff-impact-" = true ->
  _impact_label td = _IMPACT_MAP !! Str.rsplit1_last "-" cls
  /\ (~ In (Str.rsplit1_last "-" cls) ["red"; "ora"; "yel"; "gra"] ->
      _impact_label td = None)
  /\ (forall suffix,
         cls = String.append "icon--ff-impact-" suffix ->
         existsb (Ascii.eqb "-") (list_ascii_of_string suffix) = false ->
         ~ In suffix ["red"; "ora"; "yel"; "gra"] ->
         _impact_label td = None).
Proof.
  intros Hcs Hpre Hcls.
  assert (Hlabel : _impact_label td = _IMPACT_MAP !! Str.rsplit1_last "-" cls).
  { unfold _impact_label. rewrite impact_of_spans_find, Hcs.
    rewrite (find_first_prefixed pre post cls Hpre Hcls). reflexivity. }
  split; [exact Hlabel|]. split.
  - intros Hunknown. rewrite Hlabel. apply impact_map_unknown, Hunknown.
  - intros suffix -> Hhyphen Hunknown. rewrite Hlabel.
    replace (Str.rsplit1_last "-" (String.append "icon--ff-impact-" suffix))
      with suffix
      by (symmetry;
          exact (rsplit1_last_app "-" "icon--ff-impact" suffix Hhyphen)).
    apply impact_map_unknown, Hunknown.
Qed.

Lemma impact_label_first_match_wins_witness :
  _impact_label
    (impact_td [span_of_class "icon icon--ff-impact-zzz";
                span_of_class "icon icon--ff-impact-red"]) = None.
Proof.
  apply (proj1 (proj2 (impact_label_first_match_wins
                         (impact_td [span_of_class "icon icon--ff-impact-zzz";
                                     span_of_class "icon icon--ff-impact-red"])
                         ["icon"] ["icon"; "icon--ff-impact-red"]
                         "icon--ff-impact-zzz" eq_refl eq_refl eq_refl))).
  vm_compute. intros [H|[H|[H|[H|[]]]]]; discriminate H.
Defined.

(** ** The table extractor *)

Lemma find_class_nil (doc : Element) (name : string) :
  Lxml.find_class doc name = [] <->
  forall e, In e (Lxml.descendants_or_self doc) -> Lxml.has_class name e = false.
Proof.
  unfold Lxml.find_class. split.
  - intros H e He. destruct (Lxml.has_class name e) eqn:Hc; [|reflexivity].
    assert (Hin : In e (List.filter (Lxml.has_class name)
                          (Lxml.descendants_or_self doc)))
      by (apply filter_In; split; assumption).
    rewrite H in Hin. destruct Hin.
  - intros H. induction (Lxml.descendants_or_self doc) as [|x l IH];
      [reflexivity|].
    simpl. rewrite (H x (or_introl eq_refl)). apply IH.
    intros e He. apply H. right. exact He.
Qed.

Lemma filter_head_find {A} (f : A -> bool) (l : list A) :
  find f l = match List.filter f l with x :: _ => Some x | [] => None end.
Proof.
  induction l as [|x l IH]; [reflexivity|].
  simpl. destruct (f x); [reflexivity | exact IH].
Qed.

(** C6: on a document without an element of class [calendar__table]
    the extractor raises (the code's exception is [ValueError]); on a
    document with such an element it returns the serialisation of the
    first one in document order. *)
Theorem extract_calendar_table_marker
    (fromstring : string -> result Element) (tostring : Element -> string)
    (page_html : string) (doc : Element) :
  fromstring page_html = Ok doc ->
  ((forall e, In e (Lxml.descendants_or_self doc) ->
              Lxml.has_class "calendar__table" e = false) ->
   extract_calendar_table fromstring tostring page_html = Raise ValueError)
  /\ ((exists e, In e (Lxml.descendants_or_self doc)
                 /\ Lxml.has_class "calendar__table" e = true) ->
      exists t,
        find (Lxml.has_class "calendar__table")
             (Lxml.descendants_or_self doc) = Some t
        /\ In t (Lxml.descendants_or_self doc)
        /\ Lxml.has_class "calendar__table" t = true
        /\ extract_calendar_table fromstring tostring page_html
           = Ok (tostring t)).
Proof.
  intros Hdoc. unfold extract_calendar_table. rewrite Hdoc. cbn [mbind result_bind].
  split.
  - intros Hnone. apply find_class_nil in Hnone. rewrite Hnone. reflexivity.
  - intros (e & He & Hc).
    rewrite filter_head_find. unfold Lxml.find_class.
    destruct (List.filter (Lxml.has_class "calendar__table")
                (Lxml.descendants_or_self doc)) as [|t rest] eqn:Hf.
    + assert (Hin : In e (List.filter (Lxml.has_class "calendar__table")
                            (Lxml.descendants_or_self doc)))
        by (apply filter_In; split; assumption).
      rewrite Hf in Hin. destruct Hin.
    + exists t. assert (Hin : In t (t :: rest)) by (left; reflexivity).
      rewrite <- Hf in Hin. apply filter_In in Hin as [Hin Ht].
      repeat split; assumption || reflexivity.
Qed.

Lemma extract_calendar_table_marker_witness :
  extract_calendar_table (fun _ => Ok (page_of [])) show_element ""
  = Raise ValueError
  /\ exists t,
       extract_calendar_table
         (fun _ => Ok (page_of [calendar_table [event_tr [td_of_class "calendar__date" "Thu Feb 26"]]]))
         show_element "" = Ok (show_element t).
Proof.
  split.
  - apply (proj1 (extract_calendar_table_marker
                    (fun _ => Ok (page_of [])) show_element "" (page_of [])
                    eq_refl)).
    intros e He. vm_compute in He.
    destruct He as [<-|[<-|[]]]; reflexivity.
  - destruct (proj2 (extract_calendar_table_marker
                       (fun _ => Ok (page_of [calendar_table [event_tr [td_of_class "calendar__date" "Thu Feb 26"]]]))
                       show_element "" _ eq_refl)) as (t & _ & _ & _ & Ht).
    + eexists. split; [right; right; left; reflexivity | reflexivity].
    + exists t. exact Ht.
Defined.
(** ** The row scan *)

Section ScanFacts.

Variable today : date.
Variable _CET : date -> time -> Z.

(** The iteration written with [first_text] for the two carried cells. *)
Lemma scan_row_unfold (st : scan_state) (row : Element) :
  scan_row today _CET st row =
    (carried ←
       match first_text row "calendar__date" with
       | Some raw => d ← _resolve_date today raw; Ok (Some d, None)
       | None => Ok (current_date st, current_time_str st)
       end;
     let cts :=
       match first_text row "calendar__time" with
       | Some t => Some t
       | None => snd carried
       end in
     built ← build_datetime _CET (fst carried) cts;
     Ok (mkstate
           (events st ++
              [mkEvent (snd built) (fst built)
                 (first_text row "calendar__currency")
                 (match Lxml.find_class row "calendar__impact" with
                  | imp_td0 :: _ => _impact_label imp_td0
                  | [] => None
                  end)
                 (first_text row "calendar__event-title")
                 (first_text row "calendar__actual")
                 (first_text row "calendar__forecast")
                 (first_text row "calendar__previous")])
           (fst carried) cts)).
Proof.
  unfold scan_row, first_text.
  destruct (Lxml.find_class row "calendar__date") as [|date_td0 ?];
    [|destruct (_text (Some date_td0)) as [raw|];
      [destruct (_resolve_date today raw)|]];
    cbn [mbind result_bind fst snd]; try reflexivity;
    destruct (Lxml.find_class row "calendar__time") as [|time_td0 ?];
    try reflexivity;
    destruct (_text (Some time_td0)); reflexivity.
Qed.

(** The instant is null exactly when no date is carried. *)
Lemma build_datetime_null (cd : option date) (cts : option string)
    (built : bool * option datetime) :
  build_datetime _CET cd cts = Ok built ->
  (snd built = None <-> cd = None) /\ (snd built = None -> fst built = false).
Proof.
  unfold build_datetime. destruct cd as [d|].
  - destruct (_parse_time cts) as [[t|]|e]; cbn [mbind result_bind].
    + destruct (sub_seconds _ _); cbn [mbind result_bind]; intros H;
        inversion H; subst; cbn; split; [split|]; discriminate.
    + intros H; inversion H; subst; cbn; split; [split|]; discriminate.
    + discriminate.
  - intros H; inversion H; subst; cbn. tauto.
Qed.

Lemma scan_row_event (st st' : scan_state) (row : Element) :
  scan_row today _CET st row = Ok st' ->
  exists ev,
    events st' = (events st ++ [ev])%list
    /\ (ev_date ev = None <-> current_date st' = None)
    /\ (ev_date ev = None -> ev_is_all_day ev = false)
    /\ (current_date st' = None <->
        current_date st = None /\ first_text row "calendar__date" = None).
Proof.
  rewrite scan_row_unfold.
  destruct (first_text row "calendar__date") as [raw|].
  - destruct (_resolve_date today raw) as [d|e]; cbn [mbind result_bind fst snd];
      [|discriminate].
    destruct (build_datetime _ _ _) as [built|e] eqn:Hb;
      cbn [mbind result_bind]; [|discriminate].
    intros H; inversion H; subst; clear H. cbn.
    apply build_datetime_null in Hb as [Hb1 Hb2].
    eexists; split; [reflexivity|]. cbn.
    repeat split; try tauto; try discriminate. intros [_ ?]; discriminate.
  - cbn [mbind result_bind fst snd].
    destruct (build_datetime _ _ _) as [built|e] eqn:Hb;
      cbn [mbind result_bind]; [|discriminate].
    intros H; inversion H; subst; clear H. cbn.
    apply build_datetime_null in Hb as [Hb1 Hb2].
    eexists; split; [reflexivity|]. cbn. tauto.
Qed.

Lemma scan_rows_app (st : scan_state) (l1 l2 : list Element) :
  scan_rows today _CET st (l1 ++ l2)%list =
    (st1 ← scan_rows today _CET st l1; scan_rows today _CET st1 l2).
Proof.
  revert st. induction l1 as [|r l1 IH]; intros st; [reflexivity|].
  cbn [scan_rows app]. destruct (scan_row today _CET st r) as [st1|e];
    cbn [mbind result_bind]; [apply IH | reflexivity].
Qed.

Lemma scan_rows_events (rows : list Element) (st st' : scan_state) :
  scan_rows today _CET st rows = Ok st' ->
  exists new,
    events st' = (events st ++ new)%list
    /\ length new = length rows
    /\ (current_date st' = None <->
        current_date st = None
        /\ Forall (fun r => first_text r "calendar__date" = None) rows)
    /\ forall i ev,
         nth_error new i = Some ev ->
         (ev_date ev = None <->
          current_date st = None
          /\ Forall (fun r => first_text r "calendar__date" = None)
                    (firstn (S i) rows))
         /\ (ev_date ev = None -> ev_is_all_day ev = false).
Proof.
  revert st. induction rows as [|row rows IH]; intros st.
  - cbn. intros H; inversion H; subst. exists []. rewrite app_nil_r.
    split; [reflexivity|]. split; [reflexivity|]. split.
    + split; [intros H0; split; [exact H0 | constructor]
             | intros [H0 _]; exact H0].
    + intros i ev Hi. destruct i; discriminate.
  - cbn [scan_rows]. destruct (scan_row today _CET st row) as [st1|e] eqn:Hrow;
      cbn [mbind result_bind]; [|discriminate].
    intros Hrest. apply scan_row_event in Hrow as (ev0 & Hev & Hnull & Hall & Hcd).
    apply IH in Hrest as (new & Hnew & Hlen & Hcd' & Hnth).
    exists (ev0 :: new). split; [|split; [|split]].
    + rewrite Hnew, Hev, <- app_assoc. reflexivity.
    + cbn. rewrite Hlen. reflexivity.
    + rewrite Hcd', Hcd. split.
      * intros [[? ?] ?]. split; [assumption|]. constructor; assumption.
      * intros [? HF]. inversion HF; subst. tauto.
    + intros i ev Hi. destruct i as [|i].
      * cbn in Hi. inversion Hi; subst ev0. split; [|assumption].
        rewrite Hnull, Hcd. cbn. split.
        -- intros [? ?]. split; [assumption|]. constructor; [assumption|constructor].
        -- intros [? HF]. inversion HF; subst. tauto.
      * cbn in Hi. destruct (Hnth i ev Hi) as [H1 H2]. split; [|assumption].
        rewrite H1, Hcd. cbn [firstn]. split.
        -- intros [[? ?] ?]. split; [assumption|]. constructor; assumption.
        -- intros [? HF]. inversion HF; subst. tauto.
Qed.

End ScanFacts.

(** ** Null instants *)

(** C7 (as stated, refuted): an event row scanned before any date cell
    has been seen is emitted with a null instant. *)
Lemma null_instant_counterexample :
  parse_economic_calendar (fun _ => Ok table_without_date)
    (mkdate 2026 2 24) (fun _ _ => 3600) ""
  = Ok [mkEvent None false None None None None None None].
Proof. vm_compute. reflexivity. Qed.

(** C7 (amended): the parser emits one event per identified row, and the
    instant of an event is null exactly when neither its row nor any
    earlier row of the scan has a non-empty date cell; from the first
    non-empty date cell on, every emitted event has a non-null instant.
    An event with a null instant has [is_all_day = false]. *)
Theorem instant_present_once_dated
    (fromstring : string -> result Element) (today : date)
    (_CET : date -> time -> Z) (raw_html : string) (doc : Element)
    (evs : list Event) :
  fromstring raw_html = Ok doc ->
  parse_economic_calendar fromstring today _CET raw_html = Ok evs ->
  length evs = length (Lxml.xpath_tr_data_event_id doc)
  /\ forall i ev,
       nth_error evs i = Some ev ->
       (ev_date ev = None <->
        Forall (fun r => first_text r "calendar__date" = None)
               (firstn (S i) (Lxml.xpath_tr_data_event_id doc)))
       /\ (ev_date ev = None -> ev_is_all_day ev = false).
Proof.
  intros Hdoc. unfold parse_economic_calendar. rewrite Hdoc.
  cbn [mbind result_bind].
  destruct (scan_rows today _CET _ _) as [st|e] eqn:Hscan;
    cbn [mbind result_bind]; [|discriminate].
  intros H; inversion H; subst evs; clear H.
  apply scan_rows_events in Hscan as (new & Hnew & Hlen & _ & Hnth).
  cbn in Hnew. rewrite Hnew. split; [exact Hlen|].
  intros i ev Hi. destruct (Hnth i ev Hi) as [H1 H2]. split; [|exact H2].
  rewrite H1. cbn. tauto.
Qed.

Lemma instant_present_once_dated_witness :
  exists evs,
    parse_economic_calendar (fun _ => Ok table_without_date)
      (mkdate 2026 2 24) (fun _ _ => 3600) "" = Ok evs
    /\ length evs = 1%nat.
Proof.
  eexists. split; [vm_compute; reflexivity|].
  exact (proj1 (instant_present_once_dated
                  (fun _ => Ok table_without_date) (mkdate 2026 2 24)
                  (fun _ _ => 3600) "" table_without_date _ eq_refl eq_refl)).
Defined.

(** ** A date cell that does not parse *)

Lemma strptime_raises_ValueError (data fmt : string) (e : exn) :
  Strptime.strptime data fmt = Raise e -> e = ValueError.
Proof.
  unfold Strptime.strptime.
  destruct (Strptime.pattern fmt false) as [p|]; [|intros H; inversion H; reflexivity].
  unfold Re.match_all.
  destruct (p Strptime.found_empty data) as [|[f [|c rest]] l];
    cbn [mbind result_bind]; try (intros H; inversion H; reflexivity).
  unfold date_new. destruct (valid_ymd _ _ _); cbn [mbind result_bind];
    intros H; inversion H; reflexivity.
Qed.

Lemma resolve_date_unparsed (today : date) (raw : string) (e : exn) :
  Strptime.strptime raw "%a %b %d" = Raise e ->
  _resolve_date today raw = Raise ValueError.
Proof.
  intros H. unfold _resolve_date. rewrite H.
  apply strptime_raises_ValueError in H. subst e. reflexivity.
Qed.

(** C5 (as stated, refuted): the second of three rows carries the date
    text "Tomorrow"; the parse of the whole table raises, and the events
    of the first and third rows are not returned. *)
Lemma malformed_date_counterexample :
  parse_economic_calendar (fun _ => Ok table_with_malformed_date)
    (mkdate 2026 2 24) (fun _ _ => 3600) ""
  = Raise ValueError.
Proof. vm_compute. reflexivity. Qed.

(** C5 (amended): when the date cell text of a row does not match the
    weekday/month/day pattern, [_resolve_date] raises [ValueError] and
    [parse_economic_calendar] does not catch it: the parse of the whole
    table raises and returns no event, whatever rows come before and
    after. *)
Theorem malformed_date_aborts_parse
    (fromstring : string -> result Element) (today : date)
    (_CET : date -> time -> Z) (raw_html : string) (doc : Element)
    (pre post : list Element) (row : Element) (raw : string) (e : exn) :
  fromstring raw_html = Ok doc ->
  Lxml.xpath_tr_data_event_id doc = (pre ++ row :: post)%list ->
  first_text row "calendar__date" = Some raw ->
  Strptime.strptime raw "%a %b %d" = Raise e ->
  _resolve_date today raw = Raise ValueError
  /\ (exists e', parse_economic_calendar fromstring today _CET raw_html
                 = Raise e')
  /\ (forall st, scan_rows today _CET (mkstate [] None None) pre = Ok st ->
                 parse_economic_calendar fromstring today _CET raw_html
                 = Raise ValueError).
Proof.
  intros Hdoc Hrows Hraw Hparse.
  pose proof (resolve_date_unparsed today raw e Hparse) as Hres.
  split; [exact Hres|].
  assert (Hrow : forall st, scan_row today _CET st row = Raise ValueError).
  { intros st. rewrite scan_row_unfold, Hraw, Hres. reflexivity. }
  unfold parse_economic_calendar. rewrite Hdoc. cbn [mbind result_bind].
  rewrite Hrows, scan_rows_app.
  destruct (scan_rows today _CET _ pre) as [st1|e1]; cbn [mbind result_bind scan_rows].
  - rewrite Hrow. cbn [mbind result_bind]. split; [eexists; reflexivity|].
    intros; reflexivity.
  - split; [eexists; reflexivity|]. intros st Hst; discriminate.
Qed.

Lemma malformed_date_aborts_parse_witness :
  exists e',
    parse_economic_calendar (fun _ => Ok table_with_malformed_date)
      (mkdate 2026 2 24) (fun _ _ => 3600) "" = Raise e'.
Proof.
  refine (proj1 (proj2 (malformed_date_aborts_parse
            (fun _ => Ok table_with_malformed_date) (mkdate 2026 2 24)
            (fun _ _ => 3600) "" table_with_malformed_date
            [event_tr [td_of_class "calendar__date" "Thu Feb 26";
                       td_of_class "calendar__time" "8:30am";
                       td_of_class "calendar__event-title" "CPI m/m"]]
            [event_tr [td_of_class "calendar__date" "Fri Feb 27";
                       td_of_class "calendar__time" "2:00pm";
                       td_of_class "calendar__event-title" "GDP q/q"]]
            (event_tr [td_of_class "calendar__date" "Tomorrow";
                       td_of_class "calendar__event-title" "Bank Holiday"])
            "Tomorrow" ValueError eq_refl _ _ _))).
  - vm_compute. reflexivity.
  - vm_compute. reflexivity.
  - vm_compute. reflexivity.
Defined.

(** ** The date resolver *)

Lemma strptime_date_valid (data fmt : string) (dt : datetime) :
  Strptime.strptime data fmt = Ok dt ->
  year (dt_date dt) = 1900 /\ valid_date (dt_date dt) = true.
Proof.
  unfold Strptime.strptime.
  destruct (Strptime.pattern fmt false) as [p|]; [|discriminate].
  destruct (Re.match_all _ _) as [f|]; cbn [mbind result_bind]; [|discriminate].
  unfold date_new. destruct (valid_ymd _ _ _) eqn:Hv; cbn [mbind result_bind];
    [|discriminate].
  intros H; inversion H; subst; cbn. split; [reflexivity | exact Hv].
Qed.

(** A month and day that exist in 1900 exist in every supported year. *)
Lemma valid_ymd_any_year (y m d : Z) :
  valid_ymd 1900 m d = true -> MINYEAR <= y <= MAXYEAR ->
  valid_ymd y m d = true.
Proof.
  unfold valid_ymd, MINYEAR, MAXYEAR. intros H Hy.
  repeat (apply andb_true_iff in H as [H ?]).
  assert (Hdim : days_in_month 1900 m <= days_in_month y m).
  { unfold days_in_month. change (is_leap 1900) with false.
    destruct (m =? 2); [destruct (is_leap y); lia | lia]. }
  repeat (apply andb_true_iff; split); lia.
Qed.

(** X1: on a string that [strptime] reads, and a [today] whose year is
    neither the first nor the last supported one, the resolver forms the
    candidate from the month and day in the year of [today] and returns
    it moved to the previous year when it lies more than 90 days ahead,
    to the next year when it lies more than 270 days behind, unchanged
    otherwise. *)
Lemma resolve_date_thresholds (today : date) (raw : string) (parsed : datetime) :
  Strptime.strptime raw "%a %b %d" = Ok parsed ->
  MINYEAR < year today < MAXYEAR ->
  let m := month (dt_date parsed) in
  let d := day (dt_date parsed) in
  let delta := toordinal (mkdate (year today) m d) - toordinal today in
  _resolve_date today raw =
    Ok (if 90 <? delta then mkdate (year today - 1) m d
        else if delta <? -270 then mkdate (year today + 1) m d
        else mkdate (year today) m d).
Proof.
  intros Hp Hy m d delta. unfold _resolve_date. rewrite Hp.
  cbn [mbind result_bind].
  apply strptime_date_valid in Hp as [H1900 Hv]. unfold valid_date in Hv.
  rewrite H1900 in Hv. fold m d in Hv. unfold replace_year, date_new. fold m d.
  unfold MINYEAR, MAXYEAR in Hy.
  rewrite (valid_ymd_any_year (year today) m d Hv)
    by (unfold MINYEAR, MAXYEAR; lia).
  cbn [mbind result_bind month day]. unfold days_between. fold delta.
  destruct (90 <? delta).
  - rewrite (valid_ymd_any_year (year today - 1) m d Hv)
      by (unfold MINYEAR, MAXYEAR; lia). reflexivity.
  - destruct (delta <? -270); [|reflexivity].
    rewrite (valid_ymd_any_year (year today + 1) m d Hv)
      by (unfold MINYEAR, MAXYEAR; lia). reflexivity.
Qed.

Lemma resolve_date_thresholds_witness :
  _resolve_date (mkdate 2026 1 2) "Mon Dec 29" = Ok (mkdate 2025 12 29)
  /\ _resolve_date (mkdate 2025 12 28) "Mon Jan 05" = Ok (mkdate 2026 1 5).
Proof.
  split.
  - apply (resolve_date_thresholds (mkdate 2026 1 2) "Mon Dec 29"
             (mkdatetime (mkdate 1900 12 29) time_min)).
    + vm_compute. reflexivity.
    + vm_compute. split; reflexivity.
  - apply (resolve_date_thresholds (mkdate 2025 12 28) "Mon Jan 05"
             (mkdatetime (mkdate 1900 1 5) time_min)).
    + vm_compute. reflexivity.
    + vm_compute. split; reflexivity.
Defined.

Example resolve_date_same_year :
  _resolve_date (mkdate 2026 2 24) "Thu Feb 26" = Ok (mkdate 2026 2 26).
Proof. vm_compute. reflexivity. Qed.

Example resolve_date_next_year :
  _resolve_date (mkdate 2025 12 28) "Mon Jan 05" = Ok (mkdate 2026 1 5).
Proof. vm_compute. reflexivity. Qed.

Example resolve_date_last_year :
  _resolve_date (mkdate 2026 1 2) "Mon Dec 29" = Ok (mkdate 2025 12 29).
Proof. vm_compute. reflexivity. Qed.

(** C2 (the code departs from it): "Thu Feb 29" is a weekday, month and
    day string, and 2024-02-29 is a date three days after 2024-02-26, so
    the resolver should return it unchanged.  [strptime] without a year
    builds the date in 1900, which has no February 29th: the resolver
    raises [ValueError], on that day as on any other. *)
Theorem resolve_date_feb_29_raises :
  valid_date (mkdate 2024 2 29) = true
  /\ days_between (mkdate 2024 2 29) (mkdate 2024 2 26) = 3
  /\ _resolve_date (mkdate 2024 2 26) "Thu Feb 29" = Raise ValueError
  /\ forall today, _resolve_date today "Thu Feb 29" = Raise ValueError.
Proof.
  repeat split; vm_compute; reflexivity.
Qed.

(** ** Carry-over of date and time *)

Lemma build_datetime_no_time (_CET : date -> time -> Z) (d : date) :
  build_datetime _CET (Some d) None = Ok (true, Some (combine d time_min)).
Proof. reflexivity. Qed.

(** C1: in one scan a row without a (non-empty) date cell keeps the
    carried date, and without a (non-empty) time cell it also keeps the
    carried time text; a row whose date cell resolves starts a new day
    with no carried time, so that without a time cell of its own its
    event is all-day at midnight UTC of the new date.  Every event is
    built from the date and time text carried at its row.  Hence rows
    [date D1, time T1], [no date, no time], [no date, time T2] give the
    instants of (D1, T1), (D1, T1), (D1, T2), and rows [date D1, time
    T1], [date D2, no time] give an all-day second event. *)
Theorem carry_over_within_day (today : date) (_CET : date -> time -> Z) :
  (forall st row st',
      scan_row today _CET st row = Ok st' ->
      (first_text row "calendar__date" = None ->
       current_date st' = current_date st
       /\ (first_text row "calendar__time" = None ->
           current_time_str st' = current_time_str st))
      /\ (forall raw,
             first_text row "calendar__date" = Some raw ->
             exists d,
               _resolve_date today raw = Ok d
               /\ current_date st' = Some d
               /\ current_time_str st' = first_text row "calendar__time")
      /\ (forall t, first_text row "calendar__time" = Some t ->
                    current_time_str st' = Some t)
      /\ exists ev,
           events st' = (events st ++ [ev])%list
           /\ build_datetime _CET (current_date st') (current_time_str st')
              = Ok (ev_is_all_day ev, ev_date ev))
  /\ (forall fromstring raw_html doc r1 r2 r3 raw1 D1 T1 T2 b1 b2,
         fromstring raw_html = Ok doc ->
         Lxml.xpath_tr_data_event_id doc = [r1; r2; r3] ->
         first_text r1 "calendar__date" = Some raw1 ->
         _resolve_date today raw1 = Ok D1 ->
         first_text r1 "calendar__time" = Some T1 ->
         first_text r2 "calendar__date" = None ->
         first_text r2 "calendar__time" = None ->
         first_text r3 "calendar__date" = None ->
         first_text r3 "calendar__time" = Some T2 ->
         build_datetime _CET (Some D1) (Some T1) = Ok b1 ->
         build_datetime _CET (Some D1) (Some T2) = Ok b2 ->
         exists e1 e2 e3,
           parse_economic_calendar fromstring today _CET raw_html
           = Ok [e1; e2; e3]
           /\ (ev_is_all_day e1, ev_date e1) = b1
           /\ (ev_is_all_day e2, ev_date e2) = b1
           /\ (ev_is_all_day e3, ev_date e3) = b2)
  /\ (forall fromstring raw_html doc r1 r2 raw1 raw2 D1 D2 T1 b1,
         fromstring raw_html = Ok doc ->
         Lxml.xpath_tr_data_event_id doc = [r1; r2] ->
         first_text r1 "calendar__date" = Some raw1 ->
         _resolve_date today raw1 = Ok D1 ->
         first_text r1 "calendar__time" = Some T1 ->
         first_text r2 "calendar__date" = Some raw2 ->
         _resolve_date today raw2 = Ok D2 ->
         first_text r2 "calendar__time" = None ->
         build_datetime _CET (Some D1) (Some T1) = Ok b1 ->
         exists e1 e2,
           parse_economic_calendar fromstring today _CET raw_html
           = Ok [e1; e2]
           /\ (ev_is_all_day e1, ev_date e1) = b1
           /\ ev_is_all_day e2 = true
           /\ ev_date e2 = Some (combine D2 time_min)).
Proof.
  split; [|split].
  - intros st row st'. rewrite scan_row_unfold.
    destruct (first_text row "calendar__date") as [raw|].
    + destruct (_resolve_date today raw) as [d|e] eqn:Hres;
        cbn [mbind result_bind fst snd]; [|discriminate].
      destruct (build_datetime _ _ _) as [[b o]|e] eqn:Hb;
        cbn [mbind result_bind]; [|discriminate].
      intros H; inversion H; subst; clear H. cbn.
      split; [discriminate|]. split; [|split].
      * intros raw' Hraw. inversion Hraw; subst raw'. exists d.
        rewrite Hres. repeat split.
        destruct (first_text row "calendar__time"); reflexivity.
      * intros t Ht. rewrite Ht. reflexivity.
      * eexists. split; [reflexivity|]. cbn. exact Hb.
    + cbn [mbind result_bind fst snd].
      destruct (build_datetime _ _ _) as [[b o]|e] eqn:Hb;
        cbn [mbind result_bind]; [|discriminate].
      intros H; inversion H; subst; clear H. cbn.
      split; [|split; [|split]].
      * intros _. split; [reflexivity|]. intros Ht. rewrite Ht. reflexivity.
      * intros raw' Hraw. discriminate.
      * intros t Ht. rewrite Ht. reflexivity.
      * eexists. split; [reflexivity|]. cbn. exact Hb.
  - intros fromstring raw_html doc r1 r2 r3 raw1 D1 T1 T2 [a1 o1] [a2 o2]
      Hdoc Hrows H1d Hres H1t H2d H2t H3d H3t Hb1 Hb2.
    unfold parse_economic_calendar. rewrite Hdoc. cbn [mbind result_bind].
    rewrite Hrows. cbn [scan_rows].
    rewrite scan_row_unfold, H1d, Hres. cbn [mbind result_bind fst snd].
    rewrite H1t, Hb1. cbn [mbind result_bind fst snd].
    rewrite scan_row_unfold, H2d.
    cbn [mbind result_bind fst snd current_date current_time_str].
    rewrite H2t, Hb1. cbn [mbind result_bind fst snd].
    rewrite scan_row_unfold, H3d.
    cbn [mbind result_bind fst snd current_date current_time_str].
    rewrite H3t, Hb2. cbn [mbind result_bind fst snd events app].
    do 3 eexists. split; [reflexivity|]. cbn. repeat split.
  - intros fromstring raw_html doc r1 r2 raw1 raw2 D1 D2 T1 [a1 o1]
      Hdoc Hrows H1d Hres1 H1t H2d Hres2 H2t Hb1.
    unfold parse_economic_calendar. rewrite Hdoc. cbn [mbind result_bind].
    rewrite Hrows. cbn [scan_rows].
    rewrite scan_row_unfold, H1d, Hres1. cbn [mbind result_bind fst snd].
    rewrite H1t, Hb1. cbn [mbind result_bind fst snd].
    rewrite scan_row_unfold, H2d, Hres2. cbn [mbind result_bind fst snd].
    rewrite H2t, build_datetime_no_time. cbn [mbind result_bind fst snd events app].
    do 2 eexists. split; [reflexivity|]. cbn. repeat split.
Qed.

Lemma carry_over_within_day_witness :
  (exists e1 e2 e3,
      parse_economic_calendar (fun _ => Ok table_of_one_day)
        (mkdate 2026 2 24) (fun _ _ => 3600) "" = Ok [e1; e2; e3]
      /\ (ev_is_all_day e1, ev_date e1)
         = (false, Some (mkdatetime (mkdate 2026 2 26) (mktime 7 30 0)))
      /\ (ev_is_all_day e2, ev_date e2)
         = (false, Some (mkdatetime (mkdate 2026 2 26) (mktime 7 30 0)))
      /\ (ev_is_all_day e3, ev_date e3)
         = (false, Some (mkdatetime (mkdate 2026 2 26) (mktime 13 0 0))))
  /\ (exists e1 e2,
         parse_economic_calendar (fun _ => Ok table_of_two_days)
           (mkdate 2026 2 24) (fun _ _ => 3600) "" = Ok [e1; e2]
         /\ (ev_is_all_day e1, ev_date e1)
            = (false, Some (mkdatetime (mkdate 2026 2 26) (mktime 7 30 0)))
         /\ ev_is_all_day e2 = true
         /\ ev_date e2 = Some (combine (mkdate 2026 2 27) time_min)).
Proof.
  pose proof (carry_over_within_day (mkdate 2026 2 24) (fun _ _ => 3600))
    as (_ & Hthree & Htwo).
  split.
  - refine (Hthree (fun _ => Ok table_of_one_day) "" table_of_one_day
              _ _ _ "Thu Feb 26" (mkdate 2026 2 26) "8:30am" "2:00pm" _ _
              eq_refl _ _ _ _ _ _ _ _ _ _);
      vm_compute; reflexivity.
  - refine (Htwo (fun _ => Ok table_of_two_days) "" table_of_two_days
              _ _ "Thu Feb 26" "Fri Feb 27" (mkdate 2026 2 26)
              (mkdate 2026 2 27) "8:30am" _
              eq_refl _ _ _ _ _ _ _ _);
      vm_compute; reflexivity.
Defined.

(** ** What the format expressions bind *)

Lemma binds_pure {A} (P : A -> Prop) (a : A) : P a -> binds P (Re.pure a).
Proof. intros H s. repeat constructor. exact H. Qed.

Lemma binds_fail {A} (P : A -> Prop) : binds P Re.fail.
Proof. intros s. constructor. Qed.

Lemma binds_alt {A} (P : A -> Prop) (p q : Re.matcher A) :
  binds P p -> binds P q -> binds P (Re.alt p q).
Proof. intros Hp Hq s. apply Forall_app. split; [apply Hp | apply Hq]. Qed.

Lemma binds_seq {A B} (Q : A -> Prop) (P : B -> Prop)
    (p : Re.matcher A) (f : A -> Re.matcher B) :
  binds Q p -> (forall a, Q a -> binds P (f a)) -> binds P (Re.seq p f).
Proof.
  intros Hp Hf s. unfold Re.seq. specialize (Hp s).
  induction Hp as [|[a rest] l Ha _ IH]; cbn; [constructor|].
  apply Forall_app. split; [apply Hf, Ha | exact IH].
Qed.

Lemma binds_any {A} (m : Re.matcher A) : binds (fun _ => True) m.
Proof. intros s. apply Forall_forall. intros; exact I. Qed.

Lemma binds_weaken {A} (P Q : A -> Prop) (m : Re.matcher A) :
  (forall a, P a -> Q a) -> binds P m -> binds Q m.
Proof.
  intros HPQ Hm s. specialize (Hm s). rewrite List.Forall_forall in *.
  intros r Hr. apply HPQ, Hm, Hr.
Qed.

Lemma binds_digit (lo hi : Z) : binds (fun v => lo <= v <= hi) (Re.digit lo hi).
Proof.
  intros [|x s]; cbn; [constructor|].
  destruct (_ && _) eqn:H; [|constructor].
  apply andb_true_iff in H as [H1 H2]. repeat constructor; cbn; lia.
Qed.

Lemma binds_one_of (ws : list string) (i : Z) :
  binds (fun v => i <= v < i + Z.of_nat (length ws)) (Re.one_of ws i).
Proof.
  revert i. induction ws as [|w ws IH]; intros i; cbn [Re.one_of].
  - apply binds_fail.
  - apply binds_alt.
    + apply (binds_seq (fun _ => True)); [apply binds_any|].
      intros _ _. apply binds_pure. cbn [length]. lia.
    + apply (binds_weaken (fun v => i + 1 <= v < i + 1 + Z.of_nat (length ws)));
        [|apply IH].
      intros a. cbn [length]. lia.
Qed.

Lemma binds_re_I : binds (fun v => 1 <= v <= 12) Strptime.re_I.
Proof.
  unfold Strptime.re_I. repeat apply binds_alt.
  - apply (binds_seq (fun _ => True)); [apply binds_any|]. intros _ _.
    apply (binds_seq (fun v => 0 <= v <= 2)); [apply binds_digit|].
    intros u Hu. apply binds_pure. lia.
  - apply (binds_seq (fun _ => True)); [apply binds_any|]. intros _ _.
    apply (binds_weaken (fun v => 1 <= v <= 9)); [intros; lia|apply binds_digit].
  - apply (binds_weaken (fun v => 1 <= v <= 9)); [intros; lia|apply binds_digit].
Qed.

Lemma binds_re_M : binds (fun v => 0 <= v <= 59) Strptime.re_M.
Proof.
  unfold Strptime.re_M. apply binds_alt.
  - apply (binds_seq (fun v => 0 <= v <= 5)); [apply binds_digit|].
    intros t Ht. apply (binds_seq (fun v => 0 <= v <= 9)); [apply binds_digit|].
    intros u Hu. apply binds_pure. lia.
  - apply (binds_weaken (fun v => 0 <= v <= 9)); [intros; lia|apply binds_digit].
Qed.

Lemma directive_clock (c : ascii) (m : Strptime.found -> Re.matcher Strptime.found)
    (f : Strptime.found) :
  Strptime.directive c = Some m -> clock_in_range f ->
  binds clock_in_range (m f).
Proof.
  intros Hm [HI HM]. unfold Strptime.directive in Hm.
  repeat (destruct (Ascii.eqb c _);
          [inversion Hm; subst m; clear Hm|]); [| | | | | |discriminate].
  - apply (binds_seq (fun _ => True)); [apply binds_any|]. intros v _.
    apply binds_pure. split; cbn; assumption.
  - apply (binds_seq (fun _ => True)); [apply binds_any|]. intros v _.
    apply binds_pure. split; cbn; assumption.
  - apply (binds_seq (fun _ => True)); [apply binds_any|]. intros v _.
    apply binds_pure. split; cbn; assumption.
  - apply (binds_seq _ _ _ _ binds_re_I). intros v Hv.
    apply binds_pure. split; cbn; [|assumption].
    intros i Hi. inversion Hi; subst. exact Hv.
  - apply (binds_seq _ _ _ _ binds_re_M). intros v Hv.
    apply binds_pure. split; cbn; [assumption|].
    intros i Hi. inversion Hi; subst. exact Hv.
  - apply (binds_seq (fun _ => True)); [apply binds_any|]. intros v _.
    apply binds_pure. split; cbn; assumption.
Qed.

Lemma pattern_clock (n : nat) :
  forall (fmt : string) (ws : bool) p f,
    (String.length fmt <= n)%nat ->
    Strptime.pattern fmt ws = Some p -> clock_in_range f ->
    binds clock_in_range (p f).
Proof.
  induction n as [|n IH]; intros fmt ws p f Hlen Hp Hf.
  - destruct fmt; [|cbn in Hlen; lia]. cbn in Hp. inversion Hp; subst.
    apply binds_pure, Hf.
  - destruct fmt as [|c rest]; [cbn in Hp; inversion Hp; subst;
                                apply binds_pure, Hf|].
    cbn [Strptime.pattern] in Hp. cbn [String.length] in Hlen.
    destruct (Ascii.eqb c "%").
    + destruct rest as [|c' rest']; [discriminate|].
      destruct (Strptime.directive c') as [m|] eqn:Hd; [|discriminate].
      destruct (Strptime.pattern rest' false) as [k|] eqn:Hk; [|discriminate].
      inversion Hp; subst p; clear Hp.
      apply (binds_seq clock_in_range); [exact (directive_clock _ _ _ Hd Hf)|].
      intros f' Hf'. apply (IH rest' false k f'); [cbn in Hlen; lia| exact Hk | exact Hf'].
    + destruct (Strptime.pattern rest (Str.isspace c)) as [k|] eqn:Hk;
        [|discriminate].
      assert (Hk' : forall f', clock_in_range f' -> binds clock_in_range (k f')).
      { intros f' Hf'. apply (IH rest (Str.isspace c) k f'); [lia|exact Hk|exact Hf']. }
      destruct (Str.isspace c).
      * destruct ws; inversion Hp; subst p; clear Hp; [apply Hk', Hf|].
        apply (binds_seq (fun _ => True)); [apply binds_any|].
        intros _ _. apply Hk', Hf.
      * inversion Hp; subst p; clear Hp.
        apply (binds_seq (fun _ => True)); [apply binds_any|].
        intros _ _. apply Hk', Hf.
Qed.

Lemma hour24_range (i : Z) (p : option Z) :
  1 <= i <= 12 -> 0 <= Strptime.hour24 i p < 24.
Proof.
  intros Hi. unfold Strptime.hour24.
  destruct p as [[|[| |]|]|]; destruct (Z.eqb_spec i 12); lia.
Qed.

(** The time of day that [strptime] returns is a time of day. *)
Lemma strptime_time_valid (data fmt : string) (dt : datetime) :
  Strptime.strptime data fmt = Ok dt ->
  valid_time (dt_time dt) = true /\ second (dt_time dt) = 0.
Proof.
  unfold Strptime.strptime.
  destruct (Strptime.pattern fmt false) as [p|] eqn:Hp; [|discriminate].
  assert (Hb : binds clock_in_range (p Strptime.found_empty)).
  { apply (pattern_clock (String.length fmt) fmt false p); [lia|exact Hp|].
    split; intros ? H; discriminate H. }
  unfold Re.match_all. specialize (Hb data).
  destruct (p Strptime.found_empty data) as [|[f [|c rest]] l];
    cbn [mbind result_bind]; try discriminate.
  inversion Hb as [|? ? [HI HM] _]; subst. cbn [fst] in HI, HM.
  destruct (date_new _ _ _); cbn [mbind result_bind]; [|discriminate].
  intros H; inversion H; subst; clear H. cbn. split; [|reflexivity].
  unfold valid_time. cbn.
  assert (0 <= match Strptime.f_I f with
               | Some i => Strptime.hour24 i (Strptime.f_p f)
               | None => 0
               end < 24).
  { destruct (Strptime.f_I f) as [i|]; [apply hour24_range, HI; reflexivity|lia]. }
  assert (0 <= default 0 (Strptime.f_M f) <= 59).
  { destruct (Strptime.f_M f) as [m|]; cbn; [apply HM; reflexivity|lia]. }
  repeat (apply andb_true_iff; split); lia.
Qed.

(** ** The time parser *)

Lemma parse_time_formats_total (raw : string) (fmts : list string) :
  exists o, parse_time_formats raw fmts = Ok o.
Proof.
  induction fmts as [|fmt fmts IH]; cbn [parse_time_formats];
    [eexists; reflexivity|].
  destruct (Strptime.strptime raw fmt) as [dt|e] eqn:H; [eexists; reflexivity|].
  apply strptime_raises_ValueError in H. subst e. exact IH.
Qed.

(** [_parse_time] never raises. *)
Lemma parse_time_total (raw : option string) :
  exists o, _parse_time raw = Ok o.
Proof.
  unfold _parse_time. destruct (Str.truthy raw);
    [apply parse_time_formats_total | eexists; reflexivity].
Qed.

Lemma parse_time_formats_valid (raw : string) (fmts : list string) (t : time) :
  parse_time_formats raw fmts = Ok (Some t) ->
  valid_time t = true /\ second t = 0.
Proof.
  induction fmts as [|fmt fmts IH]; cbn [parse_time_formats]; [discriminate|].
  destruct (Strptime.strptime raw fmt) as [dt|[| |]] eqn:H;
    try discriminate; [|exact IH].
  intros Ht; inversion Ht; subst t. exact (strptime_time_valid _ _ _ H).
Qed.

Lemma parse_time_valid (raw : option string) (t : time) :
  _parse_time raw = Ok (Some t) -> valid_time t = true /\ second t = 0.
Proof.
  unfold _parse_time. destruct (Str.truthy raw); [|discriminate].
  apply parse_time_formats_valid.
Qed.

Lemma parse_time_formats_unmatched (raw : string) (fmts : list string) :
  (forall fmt, In fmt fmts -> exists e, Strptime.strptime raw fmt = Raise e) ->
  parse_time_formats raw fmts = Ok None.
Proof.
  induction fmts as [|fmt fmts IH]; cbn [parse_time_formats]; [reflexivity|].
  intros H. destruct (H fmt (or_introl eq_refl)) as [e He].
  rewrite He. apply strptime_raises_ValueError in He. subst e.
  apply IH. intros fmt' Hin. apply H. right. exact Hin.
Qed.

(** A string that neither format reads gives no time. *)
Lemma parse_time_unmatched (s : string) :
  (forall fmt, In fmt ["%I:%M%p"; "%I:%M %p"] ->
               exists e, Strptime.strptime (Str.lower (Str.strip s)) fmt = Raise e) ->
  _parse_time (Some s) = Ok None.
Proof.
  intros H. unfold _parse_time. destruct s as [|c s]; [reflexivity|].
  cbn [Str.truthy]. apply parse_time_formats_unmatched, H.
Qed.

(** A string that reads, after [strip] and [lower], as [canon]. *)
Lemma parse_time_canonical (s canon : string) (o : option time) :
  Str.lower (Str.strip s) = canon ->
  canon <> "" ->
  parse_time_formats canon ["%I:%M%p"; "%I:%M %p"] = Ok o ->
  _parse_time (Some s) = Ok o.
Proof.
  intros Hc Hne Hp. unfold _parse_time.
  destruct s as [|c s]; [cbn in Hc; congruence|].
  cbn [Str.truthy]. rewrite Hc. exact Hp.
Qed.

Example parse_time_morning :
  _parse_time (Some "8:30am") = Ok (Some (mktime 8 30 0)).
Proof. vm_compute. reflexivity. Qed.

Example parse_time_midnight :
  _parse_time (Some " 12:05 AM ") = Ok (Some (mktime 0 5 0)).
Proof. vm_compute. reflexivity. Qed.

Example parse_time_noon :
  _parse_time (Some "12:30pm") = Ok (Some (mktime 12 30 0)).
Proof. vm_compute. reflexivity. Qed.

Example parse_time_24h_clock_rejected :
  _parse_time (Some "14:30") = Ok None.
Proof. vm_compute. reflexivity. Qed.



(** ** Calendar arithmetic *)

Lemma days_before_month_succ (y m : Z) :
  1 <= m <= 11 ->
  days_before_month y (m + 1) = days_before_month y m + days_in_month y m.
Proof.
  intros Hm.
  assert (Hc : m = 1 \/ m = 2 \/ m = 3 \/ m = 4 \/ m = 5 \/ m = 6 \/ m = 7
               \/ m = 8 \/ m = 9 \/ m = 10 \/ m = 11) by lia.
  unfold days_before_month, days_in_month.
  destruct (is_leap y);
    repeat (destruct Hc as [->|Hc]; [reflexivity|]); subst m; reflexivity.
Qed.

Lemma days_before_year_succ (y : Z) :
  days_before_year (y + 1) = days_before_year y + (if is_leap y then 366 else 365).
Proof.
  unfold days_before_year, is_leap. cbn zeta.
  replace (y + 1 - 1) with y by lia.
  destruct (Z.eqb_spec (y mod 4) 0), (Z.eqb_spec (y mod 100) 0),
    (Z.eqb_spec (y mod 400) 0); cbn [negb andb orb];
    Z.div_mod_to_equations; lia.
Qed.

Lemma days_in_month_range (y m : Z) : 28 <= days_in_month y m <= 31.
Proof.
  unfold days_in_month.
  destruct (m =? 2); [destruct (is_leap y); lia|].
  destruct (_ || _); lia.
Qed.

Lemma valid_ymd_spec (y m d : Z) :
  valid_ymd y m d = true <->
  MINYEAR <= y <= MAXYEAR /\ 1 <= m <= 12 /\ 1 <= d <= days_in_month y m.
Proof.
  unfold valid_ymd. rewrite !andb_true_iff, !Z.leb_le. tauto.
Qed.

Lemma days_before_year_pos (y : Z) : 1 < y -> 0 < days_before_year y.
Proof.
  intros Hy. unfold days_before_year. cbn zeta.
  Z.div_mod_to_equations. lia.
Qed.

Lemma days_before_year_mono (y : Z) :
  days_before_year y < days_before_year (y + 1).
Proof. rewrite days_before_year_succ. destruct (is_leap y); lia. Qed.

(** Stepping a date by at most one day stays in the calendar and moves
    the ordinal by as much. *)
Lemma normalize_step (y m d carry : Z) :
  valid_ymd y m d = true ->
  -1 <= carry <= 1 ->
  1 < ymd_to_ord y m d < MAXORDINAL ->
  exists r,
    normalize_y_m_d y m (d + carry) = Ok r
    /\ toordinal r = ymd_to_ord y m d + carry
    /\ valid_date r = true.
Proof.
  intros Hv Hc Hord. apply valid_ymd_spec in Hv as (Hy & Hm & Hd).
  unfold MINYEAR, MAXYEAR in Hy.
  pose proof (days_in_month_range y m) as Hdim.
  unfold normalize_y_m_d. cbn zeta.
  destruct ((d + carry <? 1) || (days_in_month y m <? d + carry)) eqn:Hout.
  - apply orb_true_iff in Hout as [Hlo|Hhi].
    + apply Z.ltb_lt in Hlo. assert (d = 1 /\ carry = -1) as [-> ->] by lia.
      cbn [Z.add Z.eqb Z.pos_sub]. change (1 + -1 =? 0) with true. cbn iota.
      destruct (Z.ltb_spec 0 (m - 1)) as [Hm1|Hm1].
      * assert (Hyr : (MINYEAR <=? y) && (y <=? MAXYEAR) = true)
          by (unfold MINYEAR, MAXYEAR; apply andb_true_iff; split; lia).
        cbn [year]. rewrite Hyr. eexists. split; [reflexivity|].
        pose proof (days_before_month_succ y (m - 1) ltac:(lia)) as Hs.
        replace (m - 1 + 1) with m in Hs by lia.
        pose proof (days_in_month_range y (m - 1)).
        split.
        -- unfold toordinal, ymd_to_ord. cbn [year month day]. lia.
        -- apply valid_ymd_spec. cbn [year month day].
           unfold MINYEAR, MAXYEAR. lia.
      * assert (m = 1) by lia. subst m.
        assert (Hy2 : 1 < y).
        { destruct (Z.eq_dec y 1) as [->|]; [|lia].
          vm_compute in Hord. destruct Hord as [Hlt _]. discriminate Hlt. }
        cbn [year].
        assert (Hyr : (MINYEAR <=? y - 1) && (y - 1 <=? MAXYEAR) = true)
          by (unfold MINYEAR, MAXYEAR; apply andb_true_iff; split; lia).
        rewrite Hyr. eexists. split; [reflexivity|].
        pose proof (days_before_year_succ (y - 1)) as Hs.
        replace (y - 1 + 1) with y in Hs by lia.
        split.
        -- unfold toordinal, ymd_to_ord, days_before_month.
           cbn [year month day]. change (2 <? 12) with true.
           change (2 <? 1) with false. cbn [andb].
           destruct (is_leap (y - 1)); lia.
        -- apply valid_ymd_spec. cbn [year month day].
           unfold MINYEAR, MAXYEAR. change (days_in_month (y - 1) 12) with 31.
           lia.
    + apply Z.ltb_lt in Hhi.
      assert (d = days_in_month y m /\ carry = 1) as [Hdd ->] by lia.
      destruct (Z.eqb_spec (d + 1) 0) as [|_]; [lia|].
      destruct (Z.eqb_spec (d + 1) (days_in_month y m + 1)) as [_|]; [|lia].
      destruct (Z.ltb_spec 12 (m + 1)) as [Hm12|Hm12].
      * assert (m = 12) by lia. subst m.
        assert (Hy2 : y < 9999).
        { destruct (Z.eq_dec y 9999) as [->|]; [|lia].
          subst d. vm_compute in Hord. destruct Hord as [_ Hlt]. discriminate Hlt. }
        cbn [year].
        assert (Hyr : (MINYEAR <=? y + 1) && (y + 1 <=? MAXYEAR) = true)
          by (unfold MINYEAR, MAXYEAR; apply andb_true_iff; split; lia).
        rewrite Hyr. eexists. split; [reflexivity|].
        pose proof (days_before_year_succ y) as Hs.
        split.
        -- unfold toordinal, ymd_to_ord, days_before_month.
           cbn [year month day]. change (2 <? 12) with true.
           change (2 <? 1) with false. cbn [andb].
           change (days_in_month y 12) with 31 in Hdd. subst d.
           destruct (is_leap y); lia.
        -- apply valid_ymd_spec. cbn [year month day].
           unfold MINYEAR, MAXYEAR. change (days_in_month (y + 1) 1) with 31.
           lia.
      * assert (Hyr : (MINYEAR <=? y) && (y <=? MAXYEAR) = true)
          by (unfold MINYEAR, MAXYEAR; apply andb_true_iff; split; lia).
        cbn [year]. rewrite Hyr. eexists. split; [reflexivity|].
        pose proof (days_before_month_succ y m ltac:(lia)) as Hs.
        pose proof (days_in_month_range y (m + 1)).
        split.
        -- unfold toordinal, ymd_to_ord. cbn [year month day]. lia.
        -- apply valid_ymd_spec. cbn [year month day].
           unfold MINYEAR, MAXYEAR. lia.
  - apply orb_false_iff in Hout as [Hlo Hhi].
    apply Z.ltb_ge in Hlo, Hhi.
    assert (Hyr : (MINYEAR <=? y) && (y <=? MAXYEAR) = true)
      by (unfold MINYEAR, MAXYEAR; apply andb_true_iff; split; lia).
    cbn [year]. rewrite Hyr. eexists. split; [reflexivity|]. split.
    + unfold toordinal, ymd_to_ord. cbn [year month day]. lia.
    + apply valid_ymd_spec. cbn [year month day]. unfold MINYEAR, MAXYEAR. lia.
Qed.

Example ord_to_ymd_leap_day :
  ord_to_ymd (toordinal (mkdate 2024 2 29)) = mkdate 2024 2 29
  /\ ord_to_ymd (toordinal (mkdate 2024 2 29) + 1) = mkdate 2024 3 1
  /\ ord_to_ymd 1 = mkdate 1 1 1
  /\ ord_to_ymd MAXORDINAL = mkdate 9999 12 31.
Proof. vm_compute. repeat split. Qed.

Lemma valid_time_spec (t : time) :
  valid_time t = true <->
  0 <= hour t < 24 /\ 0 <= minute t < 60 /\ 0 <= second t < 60.
Proof.
  unfold valid_time. rewrite !andb_true_iff, !Z.leb_le, !Z.ltb_lt. tauto.
Qed.

(** Subtracting an offset of less than a day from a local date and time
    gives the instant that many seconds earlier. *)
Lemma sub_seconds_instant (d : date) (t : time) (off : Z) :
  valid_date d = true -> valid_time t = true ->
  -86400 < off < 86400 ->
  1 < toordinal d < MAXORDINAL ->
  exists dt,
    sub_seconds (combine d t) off = Ok dt
    /\ timestamp dt = timestamp (combine d t) - off
    /\ valid_date (dt_date dt) = true
    /\ valid_time (dt_time dt) = true.
Proof.
  intros Hd Ht Hoff Hord. apply valid_time_spec in Ht.
  unfold sub_seconds. cbn [combine dt_time dt_date].
  set (total := hour t * 3600 + minute t * 60 + second t - off).
  assert (Hcarry : -1 <= total / 86400 <= 1).
  { subst total. Z.div_mod_to_equations. lia. }
  destruct (normalize_step (year d) (month d) (day d) (total / 86400)
              Hd Hcarry Hord) as (r & Hr & Hor & Hvr).
  rewrite Hr. cbn [mbind result_bind]. eexists. split; [reflexivity|].
  unfold timestamp. cbn [dt_date dt_time hour minute second combine].
  rewrite Hor. fold (toordinal d).
  split; [|split; [exact Hvr|]].
  - subst total. Z.div_mod_to_equations. lia.
  - apply valid_time_spec. cbn [hour minute second].
    Z.div_mod_to_equations. lia.
Qed.

(** ** Conversion of the local time to UTC *)

Lemma normalize_same_day (d : date) :
  valid_date d = true ->
  normalize_y_m_d (year d) (month d) (day d + 0) = Ok d.
Proof.
  intros Hv. rewrite Z.add_0_r. apply valid_ymd_spec in Hv as (Hy & Hm & Hd).
  unfold normalize_y_m_d. cbn zeta.
  destruct (Z.ltb_spec (day d) 1); [lia|].
  destruct (Z.ltb_spec (days_in_month (year d) (month d)) (day d)); [lia|].
  cbn [orb year].
  destruct (Z.leb_spec MINYEAR (year d)); [|lia].
  destruct (Z.leb_spec (year d) MAXYEAR); [|lia].
  destruct d; reflexivity.
Qed.



Example utc_date_differs_near_midnight :
  build_datetime europe_berlin_utcoffset (Some (mkdate 2026 1 1))
    (Some "12:30am")
  = Ok (false, Some (mkdatetime (mkdate 2025 12 31) (mktime 23 30 0))).
Proof. vm_compute. reflexivity. Qed.

Example utc_date_differs_in_summer :
  build_datetime europe_berlin_utcoffset (Some (mkdate 2026 7 1))
    (Some "1:15am")
  = Ok (false, Some (mkdatetime (mkdate 2026 6 30) (mktime 23 15 0))).
Proof. vm_compute. reflexivity. Qed.

(** ** The economics upsert *)

Lemma COALESCE_idem (a b : option string) :
  COALESCE a (COALESCE a b) = COALESCE a b.
Proof. destruct a; reflexivity. Qed.

Lemma COALESCE_self (a : option string) : COALESCE a a = a.
Proof. destruct a; reflexivity. Qed.

Lemma do_update_idem (excluded old : econ_row) :
  do_update excluded (do_update excluded old) = do_update excluded old.
Proof. unfold do_update. cbn. rewrite !COALESCE_idem. reflexivity. Qed.

Lemma do_update_self (r : econ_row) : do_update r r = r.
Proof. destruct r. unfold do_update. cbn. rewrite !COALESCE_self. reflexivity. Qed.

Lemma col_do_update (c : column) (excluded old : econ_row) :
  col c (do_update excluded old) = COALESCE (col c excluded) (col c old).
Proof. destruct c; reflexivity. Qed.

Lemma insert_on_conflict_idem (day : date) (event : string)
    (excluded : econ_row) (tbl : economics_calendar) :
  insert_on_conflict day event excluded
    (insert_on_conflict day event excluded tbl)
  = insert_on_conflict day event excluded tbl.
Proof.
  unfold insert_on_conflict.
  destruct (tbl !! (day, event)) as [old|] eqn:Hold.
  - rewrite lookup_insert_eq, insert_insert_eq, do_update_idem. reflexivity.
  - rewrite lookup_insert_eq, insert_insert_eq, do_update_self. reflexivity.
Qed.

Lemma insert_on_conflict_other (day : date) (event : string)
    (excluded : econ_row) (tbl : economics_calendar) (k : date * string) :
  k <> (day, event) ->
  insert_on_conflict day event excluded tbl !! k = tbl !! k.
Proof.
  intros Hk. unfold insert_on_conflict.
  destruct (tbl !! (day, event)); apply lookup_insert_ne; congruence.
Qed.

Lemma COALESCE_assoc (a b c : option string) :
  COALESCE a (COALESCE b c) = COALESCE (COALESCE a b) c.
Proof. destruct a; reflexivity. Qed.

Lemma do_update_assoc (a b r : econ_row) :
  do_update a (do_update b r) = do_update (do_update a b) r.
Proof. unfold do_update. cbn. rewrite !COALESCE_assoc. reflexivity. Qed.

Lemma do_update_empty (e : econ_row) : do_update e empty_row = e.
Proof. destruct e as [[] [] [] [] [] []]; reflexivity. Qed.

Lemma write_event_lookup (day : date) (tbl : economics_calendar)
    (ev : gmap string string) (k : date * string) :
  write_event day tbl ev !! k = row_step k (tbl !! k) (day, ev).
Proof.
  unfold write_event, row_step. cbn [fst snd].
  destruct (Str.truthy (ev !! "event")) as [event_name|]; [|reflexivity].
  unfold insert_on_conflict. destruct (decide (k = (day, event_name))) as [->|Hk].
  - destruct (tbl !! (day, event_name)) as [old|]; rewrite lookup_insert_eq;
      [reflexivity|]. cbn [default from_option id].
    rewrite do_update_empty. reflexivity.
  - destruct (tbl !! (day, event_name)); apply lookup_insert_ne; congruence.
Qed.

Lemma write_batch_flat (data : list (date * list (gmap string string)))
    (tbl : economics_calendar) :
  write_economics_calendar data tbl =
    fold_left (fun t day_ev => write_event (fst day_ev) t (snd day_ev))
              (batch_events data) tbl.
Proof.
  unfold write_economics_calendar, batch_events. revert tbl.
  induction data as [|[day evs] data IH]; intros tbl; [reflexivity|].
  cbn [fold_left flat_map fst snd]. rewrite fold_left_app, IH. f_equal.
  clear. revert tbl. induction evs as [|ev evs IH]; intros tbl; [reflexivity|].
  cbn. apply IH.
Qed.

Lemma write_batch_lookup (l : list (date * gmap string string))
    (tbl : economics_calendar) (k : date * string) :
  fold_left (fun t day_ev => write_event (fst day_ev) t (snd day_ev)) l tbl !! k
  = fold_left (row_step k) l (tbl !! k).
Proof.
  revert tbl. induction l as [|[day ev] l IH]; intros tbl; [reflexivity|].
  cbn [fold_left fst snd]. rewrite IH, write_event_lookup. reflexivity.
Qed.

(** A batch acts on a stored row as one update by the row it builds
    from nothing. *)
Lemma row_steps_as_update (k : date * string)
    (l : list (date * gmap string string)) (stored : option econ_row) :
  fold_left (row_step k) l stored =
    match fold_left (row_step k) l None with
    | None => stored
    | Some w => Some (do_update w (default empty_row stored))
    end.
Proof.
  revert stored. induction l as [|x l IH]; intros stored; [reflexivity|].
  cbn [fold_left].
  assert (Hx : (row_step k stored x = stored /\ row_step k None x = None)
               \/ exists e, row_step k stored x
                            = Some (do_update e (default empty_row stored))
                            /\ row_step k None x = Some e).
  { unfold row_step.
    destruct (Str.truthy (snd x !! "event")) as [n|]; [|left; split; reflexivity].
    destruct (decide (k = (fst x, n))); [|left; split; reflexivity].
    right. eexists. split; [reflexivity|]. cbn [default from_option id].
    rewrite do_update_empty. reflexivity. }
  destruct Hx as [[-> ->]|(e & -> & ->)]; [apply IH|].
  rewrite (IH (Some (do_update e (default empty_row stored)))).
  rewrite (IH (Some e)).
  destruct (fold_left (row_step k) l None) as [w|]; [|reflexivity].
  cbn [default from_option id]. rewrite do_update_assoc. reflexivity.
Qed.

Lemma row_steps_idem (k : date * string)
    (l : list (date * gmap string string)) (stored : option econ_row) :
  fold_left (row_step k) l (fold_left (row_step k) l stored)
  = fold_left (row_step k) l stored.
Proof.
  rewrite (row_steps_as_update k l (fold_left _ _ stored)).
  rewrite (row_steps_as_update k l stored).
  destruct (fold_left (row_step k) l None) as [w|]; [|reflexivity].
  cbn [default from_option id]. rewrite do_update_assoc, do_update_self.
  reflexivity.
Qed.

(** Writing a whole batch again leaves the table as the first write
    left it. *)
Lemma write_economics_calendar_idem
    (data : list (date * list (gmap string string)))
    (tbl : economics_calendar) :
  write_economics_calendar data (write_economics_calendar data tbl)
  = write_economics_calendar data tbl.
Proof.
  rewrite !write_batch_flat. apply map_eq. intros k.
  rewrite !write_batch_lookup. apply row_steps_idem.
Qed.

Lemma col_EXCLUDED (c : column) (ev : gmap string string) :
  col c (EXCLUDED ev) = ev !! column_key c.
Proof. destruct c; reflexivity. Qed.

(** C8: writing an event a second time, or a whole batch a second time,
    leaves the table as the first write left it.  Writing an event under
    a key that has no row stores the values of the event's entries.  On
    a conflict each column of the stored row takes the value the event
    has under the key of that column, and keeps its own value where the
    event has none: a null never replaces a stored value.  So an event
    that has a value for one column that was null, and for every other
    column none or the stored one, changes that column alone.  The rows
    of other keys are not touched, and an event without a name writes
    nothing. *)
Theorem upsert_idempotent_null_preserving
    (day : date) (ev : gmap string string) (tbl : economics_calendar) :
  write_economics_calendar [(day, [ev])]
    (write_economics_calendar [(day, [ev])] tbl)
  = write_economics_calendar [(day, [ev])] tbl
  /\ (forall data,
         write_economics_calendar data (write_economics_calendar data tbl)
         = write_economics_calendar data tbl)
  /\ (Str.truthy (ev !! "event") = None ->
      write_economics_calendar [(day, [ev])] tbl = tbl)
  /\ forall event_name,
       Str.truthy (ev !! "event") = Some event_name ->
       (forall k, k <> (day, event_name) ->
                  write_economics_calendar [(day, [ev])] tbl !! k = tbl !! k)
       /\ (tbl !! (day, event_name) = None ->
           exists new,
             write_economics_calendar [(day, [ev])] tbl !! (day, event_name)
             = Some new
             /\ forall c, col c new = ev !! column_key c)
       /\ forall old,
            tbl !! (day, event_name) = Some old ->
            exists new,
              write_economics_calendar [(day, [ev])] tbl !! (day, event_name)
              = Some new
              /\ (forall c,
                     col c new = match ev !! column_key c with
                                 | Some v => Some v
                                 | None => col c old
                                 end)
              /\ (forall c v,
                     col c old = None ->
                     ev !! column_key c = Some v ->
                     (forall c', c' <> c ->
                                 ev !! column_key c' = None
                                 \/ ev !! column_key c' = col c' old) ->
                     col c new = Some v
                     /\ forall c', c' <> c -> col c' new = col c' old).
Proof.
  change (write_economics_calendar [(day, [ev])])
    with (fun t : economics_calendar => write_event day t ev).
  cbn beta.
  split.
  { unfold write_event. destruct (Str.truthy (ev !! "event")); [|reflexivity].
    apply insert_on_conflict_idem. }
  split; [intros data; apply write_economics_calendar_idem|].
  split; [intros Hnone; unfold write_event; rewrite Hnone; reflexivity|].
  intros event_name Hname. unfold write_event. rewrite Hname.
  split; [intros k Hk; apply insert_on_conflict_other, Hk|].
  unfold insert_on_conflict. split.
  - intros Hnew. rewrite Hnew. exists (EXCLUDED ev).
    split; [apply lookup_insert_eq | intros c; apply col_EXCLUDED].
  - intros old Hold. rewrite Hold. exists (do_update (EXCLUDED ev) old).
    split; [apply lookup_insert_eq|].
    assert (Hcol : forall c,
               col c (do_update (EXCLUDED ev) old)
               = match ev !! column_key c with
                 | Some v => Some v
                 | None => col c old
                 end).
    { intros c. rewrite col_do_update, col_EXCLUDED.
      destruct (ev !! column_key c); reflexivity. }
    split; [exact Hcol|].
    intros c v Hnull Hc Hrest. split.
    + rewrite Hcol, Hc. reflexivity.
    + intros c' Hc'. rewrite Hcol.
      destruct (Hrest c' Hc') as [H|H]; rewrite H; [reflexivity|].
      destruct (col c' old); reflexivity.
Qed.

Lemma upsert_idempotent_null_preserving_witness :
  exists new,
    write_economics_calendar [(mkdate 2026 2 26, [sample_update])] sample_table
      !! (mkdate 2026 2 26, "CPI m/m") = Some new
    /\ col Actual new = Some "0.4%"
    /\ forall c', c' <> Actual ->
                  col c' new
                  = col c' (mkrow (Some "8:30am") (Some "USD") None None None
                              (Some "0.2%")).
Proof.
  destruct (upsert_idempotent_null_preserving (mkdate 2026 2 26) sample_update
              sample_table) as (_ & _ & _ & H).
  destruct (H "CPI m/m" eq_refl) as (_ & _ & Hold).
  destruct (Hold (mkrow (Some "8:30am") (Some "USD") None None None
                    (Some "0.2%")) eq_refl) as (new & Hnew & _ & Hone).
  exists new. split; [exact Hnew|].
  apply (Hone Actual "0.4%").
  - reflexivity.
  - reflexivity.
  - intros c' Hc'. destruct c'; try (left; reflexivity);
      try (right; reflexivity). contradiction.
Defined.

Example upsert_fills_null_field :
  let day := mkdate 2026 2 26 in
  let first : gmap string string :=
    list_to_map [("event", "CPI m/m"); ("currency", "USD"); ("forecast", "0.3%")] in
  let second : gmap string string :=
    list_to_map [("event", "CPI m/m"); ("actual", "0.4%")] in
  write_economics_calendar [(day, [second])]
    (write_economics_calendar [(day, [first])] ∅) !! (day, "CPI m/m")
  = Some (mkrow None (Some "USD") None (Some "0.4%") (Some "0.3%") None).
Proof. vm_compute. reflexivity. Qed.

Example upsert_skips_nameless_event :
  write_economics_calendar
    [(mkdate 2026 2 26, [list_to_map [("event", ""); ("actual", "1")];
                         list_to_map [("actual", "2")]])] ∅
  = ∅.
Proof. reflexivity. Qed.

(** ** Trimmed cell text *)

Lemma lstrip_head (s : string) :
  Str.lstrip s = "" \/
  exists c r, Str.lstrip s = String c r /\ Str.isspace c = false.
Proof.
  induction s as [|c s IH]; [left; reflexivity|].
  cbn [Str.lstrip]. destruct (Str.isspace c) eqn:Hc; [exact IH|].
  right. exists c, s. split; [reflexivity | exact Hc].
Qed.

Lemma rstrip_idem (s : string) : Str.rstrip (Str.rstrip s) = Str.rstrip s.
Proof.
  induction s as [|c s IH]; [reflexivity|].
  cbn [Str.rstrip]. destruct (Str.rstrip s) as [|c' r] eqn:Hr.
  - destruct (Str.isspace c) eqn:Hc; [reflexivity|].
    cbn [Str.rstrip]. rewrite Hc. reflexivity.
  - cbn [Str.rstrip]. cbn [Str.rstrip] in IH. rewrite IH. reflexivity.
Qed.

Lemma rstrip_head (c : ascii) (s : string) :
  Str.isspace c = false ->
  exists r, Str.rstrip (String c s) = String c r.
Proof.
  intros Hc. cbn [Str.rstrip]. destruct (Str.rstrip s); [rewrite Hc|];
    eexists; reflexivity.
Qed.

Lemma strip_idem (s : string) : Str.strip (Str.strip s) = Str.strip s.
Proof.
  unfold Str.strip.
  destruct (lstrip_head s) as [H|(c & r & H & Hc)]; rewrite H; [reflexivity|].
  destruct (rstrip_head c r Hc) as [r' Hr]. rewrite Hr.
  cbn [Str.lstrip]. rewrite Hc, <- Hr. apply rstrip_idem.
Qed.

(** X2: the text [_text] returns for a cell is the text content of the
    element with the white space at both ends removed; it is never the
    empty string, and stripping it again changes nothing.  A missing
    element and an element whose text is blank both give [None]. *)
Theorem text_is_stripped_and_nonempty (el : option Element) (s : string) :
  _text el = Some s ->
  s <> ""
  /\ Str.strip s = s
  /\ exists e, el = Some e /\ s = Str.strip (Lxml.text_content e).
Proof.
  unfold _text. destruct el as [e|]; [|discriminate].
  destruct (Str.strip (Lxml.text_content e)) as [|c r] eqn:Hs;
    cbn [Str.truthy]; [discriminate|].
  intros H; inversion H; subst s; clear H.
  split; [discriminate|]. split.
  - rewrite <- Hs. apply strip_idem.
  - exists e. split; [reflexivity | symmetry; exact Hs].
Qed.

Lemma text_is_stripped_and_nonempty_witness :
  _text (Some (td_of_class "calendar__currency" "  USD ")) = Some "USD"
  /\ "USD" <> ""
  /\ Str.strip "USD" = "USD".
Proof.
  split; [reflexivity|].
  destruct (text_is_stripped_and_nonempty
              (Some (td_of_class "calendar__currency" "  USD ")) "USD"
              eq_refl) as (H1 & H2 & _).
  split; assumption.
Defined.

(** ** The time parser, continued *)

Lemma parse_time_some (s : string) :
  _parse_time (Some s)
  = parse_time_formats (Str.lower (Str.strip s)) ["%I:%M%p"; "%I:%M %p"].
Proof. destruct s; reflexivity. Qed.

(** X3: [_parse_time] looks at a time text only through [strip] and
    [lower]: two texts that agree up to letter case and white space at
    the ends parse alike.  A time it returns is a time of day on the
    minute: hour below 24, minute below 60, second 0. *)
Theorem parse_time_ignores_case_and_margins (s1 s2 : string) :
  Str.lower (Str.strip s1) = Str.lower (Str.strip s2) ->
  _parse_time (Some s1) = _parse_time (Some s2)
  /\ forall t, _parse_time (Some s1) = Ok (Some t) ->
               0 <= hour t < 24 /\ 0 <= minute t < 60 /\ second t = 0.
Proof.
  intros H. split; [rewrite !parse_time_some, H; reflexivity|].
  intros t Ht. destruct (parse_time_valid _ _ Ht) as [Hv Hs].
  apply valid_time_spec in Hv. tauto.
Qed.

Lemma parse_time_ignores_case_and_margins_witness :
  _parse_time (Some "  2:05PM ") = _parse_time (Some "2:05pm")
  /\ forall t, _parse_time (Some "  2:05PM ") = Ok (Some t) ->
               0 <= hour t < 24 /\ 0 <= minute t < 60 /\ second t = 0.
Proof.
  apply (parse_time_ignores_case_and_margins "  2:05PM " "2:05pm").
  reflexivity.
Defined.

(** ** The window of the date resolver *)

Lemma days_before_month_bounds (y m d : Z) :
  1 <= m <= 12 -> 1 <= d <= days_in_month y m ->
  1 <= days_before_month y m + d <= (if is_leap y then 366 else 365).
Proof.
  intros Hm Hd.
  assert (Hc : m = 1 \/ m = 2 \/ m = 3 \/ m = 4 \/ m = 5 \/ m = 6 \/ m = 7
               \/ m = 8 \/ m = 9 \/ m = 10 \/ m = 11 \/ m = 12) by lia.
  unfold days_before_month, days_in_month in *.
  destruct (is_leap y);
    repeat (destruct Hc as [->|Hc]; [cbn in *; lia|]); subst m; cbn in *; lia.
Qed.

(** A date lies within its year. *)
Lemma ord_in_year (y m d : Z) :
  valid_ymd y m d = true ->
  days_before_year y + 1 <= ymd_to_ord y m d <= days_before_year (y + 1).
Proof.
  intros Hv. apply valid_ymd_spec in Hv as (_ & Hm & Hd).
  pose proof (days_before_month_bounds y m d Hm Hd).
  rewrite days_before_year_succ. unfold ymd_to_ord.
  destruct (is_leap y); lia.
Qed.

(** The same month and day one year later is 365 or 366 days later. *)
Lemma ord_year_shift (y m d : Z) :
  365 <= ymd_to_ord (y + 1) m d - ymd_to_ord y m d <= 366.
Proof.
  unfold ymd_to_ord. rewrite days_before_year_succ.
  unfold days_before_month.
  destruct (2 <? m); cbn [andb]; destruct (is_leap y), (is_leap (y + 1)); lia.
Qed.

(** X4: a date that [_resolve_date] returns is a date of the calendar in
    the year of [today], the year before or the year after, and lies no
    more than 275 days before and no more than 95 days after [today]. *)
Theorem resolve_date_window (today : date) (raw : string) (d : date) :
  valid_date today = true ->
  _resolve_date today raw = Ok d ->
  valid_date d = true
  /\ year today - 1 <= year d <= year today + 1
  /\ -275 <= days_between d today <= 95.
Proof.
  intros Ht. unfold _resolve_date.
  destruct (Strptime.strptime raw "%a %b %d") as [parsed|];
    cbn [mbind result_bind]; [|discriminate].
  unfold replace_year, date_new.
  set (m := month (dt_date parsed)). set (dd := day (dt_date parsed)).
  destruct (valid_ymd (year today) m dd) eqn:Hc;
    cbn [mbind result_bind month day]; [|discriminate].
  unfold days_between, toordinal. cbn [year month day].
  pose proof (ord_in_year _ _ _ Hc) as Hcand.
  pose proof (ord_in_year _ _ _ Ht) as Htoday.
  rewrite days_before_year_succ in Hcand, Htoday.
  pose proof (ord_year_shift (year today - 1) m dd) as Hprev.
  replace (year today - 1 + 1) with (year today) in Hprev by lia.
  pose proof (ord_year_shift (year today) m dd) as Hnext.
  set (delta := ymd_to_ord (year today) m dd
                - ymd_to_ord (year today) (month today) (day today)) in *.
  assert (Hdelta : -365 <= delta <= 365)
    by (subst delta; destruct (is_leap (year today)); lia).
  destruct (Z.ltb_spec 90 delta) as [Hahead|Hahead].
  - destruct (valid_ymd (year today - 1) m dd) eqn:Hv; [|discriminate].
    intros H; inversion H; subst d; clear H.
    unfold valid_date. cbn [year month day].
    split; [exact Hv|]. split; [lia|]. subst delta. lia.
  - destruct (Z.ltb_spec delta (-270)) as [Hbehind|Hbehind].
    + destruct (valid_ymd (year today + 1) m dd) eqn:Hv; [|discriminate].
      intros H; inversion H; subst d; clear H.
      unfold valid_date. cbn [year month day].
      split; [exact Hv|]. split; [lia|]. subst delta. lia.
    + intros H; inversion H; subst d; clear H.
      unfold valid_date. cbn [year month day].
      split; [exact Hc|]. split; [lia|]. subst delta. lia.
Qed.

Lemma resolve_date_window_witness :
  -275 <= days_between (mkdate 2023 6 1) (mkdate 2024 3 2) <= 95
  /\ _resolve_date (mkdate 2024 3 2) "Sat Jun 1" = Ok (mkdate 2023 6 1).
Proof.
  split; [|vm_compute; reflexivity].
  apply (resolve_date_window (mkdate 2024 3 2) "Sat Jun 1" (mkdate 2023 6 1)).
  - reflexivity.
  - vm_compute. reflexivity.
Defined.

(** ** The events of a scan *)

(** A property of the carried state that every iteration keeps, and a
    relation between each row and its event, hold along the whole scan. *)
Lemma scan_rows_invariant (today : date) (_CET : date -> time -> Z)
    (Inv : scan_state -> Prop) (R : Element -> Event -> Prop) :
  (forall st row st',
      Inv st -> scan_row today _CET st row = Ok st' ->
      Inv st' /\ exists ev, events st' = (events st ++ [ev])%list /\ R row ev) ->
  forall rows st st',
    Inv st -> scan_rows today _CET st rows = Ok st' ->
    Inv st' /\ exists new, events st' = (events st ++ new)%list
                           /\ Forall2 R rows new.
Proof.
  intros Hstep rows. induction rows as [|row rows IH]; intros st st' Hst.
  - cbn. intros H; inversion H; subst. split; [exact Hst|].
    exists []. rewrite app_nil_r. split; [reflexivity | constructor].
  - cbn [scan_rows].
    destruct (scan_row today _CET st row) as [st1|e] eqn:Hrow;
      cbn [mbind result_bind]; [|discriminate].
    intros Hrest.
    destruct (Hstep st row st1 Hst Hrow) as (Hst1 & ev & Hev & HR).
    destruct (IH st1 st' Hst1 Hrest) as (Hst' & new & Hnew & HF).
    split; [exact Hst'|]. exists (ev :: new). split.
    + rewrite Hnew, Hev, <- app_assoc. reflexivity.
    + constructor; assumption.
Qed.

Lemma impact_label_range (td : Element) (v : string) :
  _impact_label td = Some v ->
  In v ["High"; "Medium"; "Low"; "Non-Economic"].
Proof.
  unfold _impact_label. rewrite impact_of_spans_find.
  destruct (find _ _) as [cls|]; [|discriminate].
  intros H. apply impact_map_known in H.
  destruct H as [H|[H|[H|H]]]; inversion H; subst; cbn; tauto.
Qed.

(** X5: the parser emits one event per identified row, in document
    order, and the text fields of each event are the trimmed-or-null
    texts of the cells of its own row: nothing but date and time is
    carried from row to row.  The impact of an event is null or one of
    High, Medium, Low, Non-Economic. *)
Theorem events_follow_rows
    (fromstring : string -> result Element) (today : date)
    (_CET : date -> time -> Z) (raw_html : string) (doc : Element)
    (evs : list Event) :
  fromstring raw_html = Ok doc ->
  parse_economic_calendar fromstring today _CET raw_html = Ok evs ->
  Forall2
    (fun row ev =>
       ev_currency ev = first_text row "calendar__currency"
       /\ ev_event ev = first_text row "calendar__event-title"
       /\ ev_actual ev = first_text row "calendar__actual"
       /\ ev_forecast ev = first_text row "calendar__forecast"
       /\ ev_previous ev = first_text row "calendar__previous"
       /\ ev_impact ev =
            match Lxml.find_class row "calendar__impact" with
            | imp_td0 :: _ => _impact_label imp_td0
            | [] => None
            end
       /\ (forall v, ev_impact ev = Some v ->
                     In v ["High"; "Medium"; "Low"; "Non-Economic"]))
    (Lxml.xpath_tr_data_event_id doc) evs.
Proof.
  intros Hdoc. unfold parse_economic_calendar. rewrite Hdoc.
  cbn [mbind result_bind].
  destruct (scan_rows today _CET _ _) as [st|e] eqn:Hscan;
    cbn [mbind result_bind]; [|discriminate].
  intros H; inversion H; subst evs; clear H.
  destruct (scan_rows_invariant today _CET (fun _ => True)
              (fun row ev =>
                 ev_currency ev = first_text row "calendar__currency"
                 /\ ev_event ev = first_text row "calendar__event-title"
                 /\ ev_actual ev = first_text row "calendar__actual"
                 /\ ev_forecast ev = first_text row "calendar__forecast"
                 /\ ev_previous ev = first_text row "calendar__previous"
                 /\ ev_impact ev =
                      match Lxml.find_class row "calendar__impact" with
                      | imp_td0 :: _ => _impact_label imp_td0
                      | [] => None
                      end
                 /\ (forall v, ev_impact ev = Some v ->
                               In v ["High"; "Medium"; "Low"; "Non-Economic"])))
    with (rows := Lxml.xpath_tr_data_event_id doc)
         (st := mkstate [] None None) (st' := st)
    as (_ & new & Hnew & HF); [|exact I|exact Hscan|].
  - intros st0 row st1 _ Hrow. split; [exact I|].
    rewrite scan_row_unfold in Hrow.
    destruct (match first_text row "calendar__date" with
              | Some raw => _ | None => _ end) as [carried|];
      cbn [mbind result_bind] in Hrow; [|discriminate].
    destruct (build_datetime _ _ _) as [built|];
      cbn [mbind result_bind] in Hrow; [|discriminate].
    inversion Hrow; subst st1; clear Hrow. cbn [events].
    eexists. split; [reflexivity|]. cbn.
    repeat (split; [reflexivity|]).
    destruct (Lxml.find_class row "calendar__impact") as [|td ?];
      [discriminate|]. apply impact_label_range.
  - cbn in Hnew. rewrite Hnew. exact HF.
Qed.

Lemma events_follow_rows_witness :
  exists evs,
    parse_economic_calendar (fun _ => Ok table_with_fields)
      (mkdate 2026 2 24) (fun _ _ => 3600) "" = Ok evs
    /\ length (Lxml.xpath_tr_data_event_id table_with_fields) = length evs.
Proof.
  assert (H : { evs | parse_economic_calendar (fun _ => Ok table_with_fields)
                        (mkdate 2026 2 24) (fun _ _ => 3600) "" = Ok evs })
    by (eexists; vm_compute; reflexivity).
  destruct H as [evs H]. exists evs. split; [exact H|].
  exact (Forall2_length _ _ _
           (events_follow_rows (fun _ => Ok table_with_fields)
              (mkdate 2026 2 24) (fun _ _ => 3600) "" table_with_fields evs
              eq_refl H)).
Defined.

(** ** Well-formed instants *)

Lemma in_range_ok (x r : date) :
  (if (MINYEAR <=? year x) && (year x <=? MAXYEAR) then Ok x
   else Raise OverflowError) = Ok r ->
  r = x /\ MINYEAR <= year x <= MAXYEAR.
Proof.
  destruct (Z.leb_spec MINYEAR (year x)) as [Hlo|Hlo],
    (Z.leb_spec (year x) MAXYEAR) as [Hhi|Hhi];
    cbn [andb]; intros Hr; inversion Hr; subst; split; (reflexivity || lia).
Qed.

(** Stepping a date by at most one day, when it does not leave the
    supported years, gives the date of the neighbouring ordinal. *)
Lemma normalize_ok_valid (y m d carry : Z) (r : date) :
  valid_ymd y m d = true ->
  -1 <= carry <= 1 ->
  normalize_y_m_d y m (d + carry) = Ok r ->
  valid_date r = true /\ toordinal r = ymd_to_ord y m d + carry.
Proof.
  intros Hv Hc. apply valid_ymd_spec in Hv as (Hy & Hm & Hd).
  pose proof (days_in_month_range y m) as Hdim.
  unfold normalize_y_m_d. cbn zeta.
  destruct ((d + carry <? 1) || (days_in_month y m <? d + carry)) eqn:Hout.
  - apply orb_true_iff in Hout as [Hlo|Hhi].
    + apply Z.ltb_lt in Hlo. assert (d = 1 /\ carry = -1) as [-> ->] by lia.
      change (1 + -1 =? 0) with true. cbn iota.
      destruct (Z.ltb_spec 0 (m - 1)) as [Hm1|Hm1]; intros Hr;
        apply in_range_ok in Hr as [-> Hyr]; cbn [year] in Hyr.
      * pose proof (days_before_month_succ y (m - 1) ltac:(lia)) as Hs.
        replace (m - 1 + 1) with m in Hs by lia.
        pose proof (days_in_month_range y (m - 1)). split.
        -- apply valid_ymd_spec. cbn [year month day]. lia.
        -- unfold toordinal, ymd_to_ord. cbn [year month day]. lia.
      * assert (m = 1) by lia. subst m.
        pose proof (days_before_year_succ (y - 1)) as Hs.
        replace (y - 1 + 1) with y in Hs by lia. split.
        -- apply valid_ymd_spec. cbn [year month day].
           change (days_in_month (y - 1) 12) with 31. lia.
        -- unfold toordinal, ymd_to_ord, days_before_month.
           cbn [year month day]. change (2 <? 12) with true.
           change (2 <? 1) with false. cbn [andb].
           destruct (is_leap (y - 1)); lia.
    + apply Z.ltb_lt in Hhi.
      assert (d = days_in_month y m /\ carry = 1) as [Hdd ->] by lia.
      destruct (Z.eqb_spec (d + 1) 0) as [|_]; [lia|].
      destruct (Z.eqb_spec (d + 1) (days_in_month y m + 1)) as [_|]; [|lia].
      destruct (Z.ltb_spec 12 (m + 1)) as [Hm12|Hm12]; intros Hr;
        apply in_range_ok in Hr as [-> Hyr]; cbn [year] in Hyr.
      * assert (m = 12) by lia. subst m.
        pose proof (days_before_year_succ y) as Hs. split.
        -- apply valid_ymd_spec. cbn [year month day].
           change (days_in_month (y + 1) 1) with 31. lia.
        -- unfold toordinal, ymd_to_ord, days_before_month.
           cbn [year month day]. change (2 <? 12) with true.
           change (2 <? 1) with false. cbn [andb].
           change (days_in_month y 12) with 31 in Hdd. subst d.
           destruct (is_leap y); lia.
      * pose proof (days_before_month_succ y m ltac:(lia)) as Hs.
        pose proof (days_in_month_range y (m + 1)). split.
        -- apply valid_ymd_spec. cbn [year month day]. lia.
        -- unfold toordinal, ymd_to_ord. cbn [year month day]. lia.
  - apply orb_false_iff in Hout as [Hlo Hhi].
    apply Z.ltb_ge in Hlo, Hhi. intros Hr.
    apply in_range_ok in Hr as [-> Hyr]; cbn [year] in Hyr. split.
    + apply valid_ymd_spec. cbn [year month day]. lia.
    + unfold toordinal, ymd_to_ord. cbn [year month day]. lia.
Qed.

Lemma sub_seconds_valid (d : date) (t : time) (off : Z) (dt : datetime) :
  valid_date d = true -> valid_time t = true ->
  -86400 < off < 86400 ->
  sub_seconds (combine d t) off = Ok dt ->
  valid_date (dt_date dt) = true
  /\ valid_time (dt_time dt) = true
  /\ timestamp dt = timestamp (combine d t) - off.
Proof.
  intros Hd Ht Hoff. apply valid_time_spec in Ht.
  unfold sub_seconds. cbn [combine dt_time dt_date].
  set (total := hour t * 3600 + minute t * 60 + second t - off).
  assert (Hcarry : -1 <= total / 86400 <= 1).
  { subst total. Z.div_mod_to_equations. lia. }
  destruct (normalize_y_m_d _ _ _) as [r|] eqn:Hr;
    cbn [mbind result_bind]; [|discriminate].
  destruct (normalize_ok_valid _ _ _ _ _ Hd Hcarry Hr) as [Hvr Hor].
  intros H; inversion H; subst dt; clear H.
  cbn [dt_date dt_time]. split; [exact Hvr|]. split.
  - apply valid_time_spec. cbn [hour minute second].
    Z.div_mod_to_equations. lia.
  - unfold timestamp. cbn [dt_date dt_time hour minute second combine].
    rewrite Hor. fold (toordinal d). subst total.
    Z.div_mod_to_equations. lia.
Qed.

Lemma resolve_date_valid (today : date) (raw : string) (d : date) :
  _resolve_date today raw = Ok d -> valid_date d = true.
Proof.
  unfold _resolve_date.
  destruct (Strptime.strptime raw "%a %b %d") as [parsed|];
    cbn [mbind result_bind]; [|discriminate].
  unfold replace_year, date_new.
  destruct (valid_ymd (year today) _ _) eqn:Hc;
    cbn [mbind result_bind month day]; [|discriminate].
  destruct (90 <? _).
  - destruct (valid_ymd (year today - 1) _ _) eqn:Hv; [|discriminate].
    intros H; inversion H; subst. exact Hv.
  - destruct (_ <? -270).
    + destruct (valid_ymd (year today + 1) _ _) eqn:Hv; [|discriminate].
      intros H; inversion H; subst. exact Hv.
    + intros H; inversion H; subst. exact Hc.
Qed.

(** X6: when the zone's offsets are shorter than a day, every instant
    the parser emits is a well-formed UTC datetime (a date of the
    calendar and a time of day), an all-day event sits at 00:00:00 of
    its date, and an event without an instant is not all-day. *)
Theorem emitted_instants_well_formed
    (fromstring : string -> result Element) (today : date)
    (_CET : date -> time -> Z) (raw_html : string) (evs : list Event) :
  (forall d t, -86400 < _CET d t < 86400) ->
  parse_economic_calendar fromstring today _CET raw_html = Ok evs ->
  Forall
    (fun ev =>
       match ev_date ev with
       | Some dt =>
           valid_date (dt_date dt) = true
           /\ valid_time (dt_time dt) = true
           /\ (ev_is_all_day ev = true -> dt_time dt = time_min)
       | None => ev_is_all_day ev = false
       end) evs.
Proof.
  intros Hoff. unfold parse_economic_calendar.
  destruct (fromstring raw_html) as [doc|]; cbn [mbind result_bind];
    [|discriminate].
  destruct (scan_rows today _CET _ _) as [st|e] eqn:Hscan;
    cbn [mbind result_bind]; [|discriminate].
  intros H; inversion H; subst evs; clear H.
  destruct (scan_rows_invariant today _CET
              (fun st => forall d, current_date st = Some d ->
                                   valid_date d = true)
              (fun _ ev =>
                 match ev_date ev with
                 | Some dt =>
                     valid_date (dt_date dt) = true
                     /\ valid_time (dt_time dt) = true
                     /\ (ev_is_all_day ev = true -> dt_time dt = time_min)
                 | None => ev_is_all_day ev = false
                 end))
    with (rows := Lxml.xpath_tr_data_event_id doc)
         (st := mkstate [] None None) (st' := st)
    as (_ & new & Hnew & HF); [|discriminate|exact Hscan|].
  - intros st0 row st1 Hinv Hrow. rewrite scan_row_unfold in Hrow.
    assert (Hcar : forall carried,
               match first_text row "calendar__date" with
               | Some raw => d ← _resolve_date today raw; Ok (Some d, None)
               | None => Ok (current_date st0, current_time_str st0)
               end = Ok carried ->
               forall d, fst carried = Some d -> valid_date d = true).
    { intros carried Hc d Hd. destruct (first_text row "calendar__date").
      - destruct (_resolve_date today s) as [d'|] eqn:Hres;
          cbn [mbind result_bind] in Hc; [|discriminate].
        inversion Hc; subst carried. cbn in Hd. inversion Hd; subst d'.
        exact (resolve_date_valid _ _ _ Hres).
      - inversion Hc; subst carried. apply Hinv, Hd. }
    destruct (match first_text row "calendar__date" with
              | Some raw => _ | None => _ end) as [[cd cts0]|];
      cbn [mbind result_bind fst snd] in Hrow; [|discriminate].
    specialize (Hcar _ eq_refl). cbn [fst] in Hcar.
    destruct (build_datetime _ _ _) as [[b o]|] eqn:Hb;
      cbn [mbind result_bind] in Hrow; [|discriminate].
    inversion Hrow; subst st1; clear Hrow. cbn [events current_date].
    split; [exact Hcar|]. eexists. split; [reflexivity|].
    cbn [ev_date ev_is_all_day fst snd].
    unfold build_datetime in Hb. destruct cd as [d|].
    + specialize (Hcar d eq_refl).
      destruct (_parse_time _) as [[t|]|] eqn:Hp;
        cbn [mbind result_bind] in Hb; [| |discriminate].
      * destruct (sub_seconds _ _) as [dt|] eqn:Hs;
          cbn [mbind result_bind] in Hb; [|discriminate].
        inversion Hb; subst b o; clear Hb.
        destruct (parse_time_valid _ _ Hp) as [Ht _].
        destruct (sub_seconds_valid d t _ dt Hcar Ht (Hoff d t) Hs)
          as (H1 & H2 & _).
        repeat split; try assumption. discriminate.
      * inversion Hb; subst b o; clear Hb. cbn.
        repeat split; try assumption; reflexivity.
    + inversion Hb; subst b o. reflexivity.
  - cbn in Hnew. rewrite Hnew. eapply Forall2_Forall_r; [exact HF|].
    apply Forall_forall. intros ev _ row Hrow. exact Hrow.
Qed.

Lemma emitted_instants_well_formed_witness :
  exists evs,
    parse_economic_calendar (fun _ => Ok table_of_two_days)
      (mkdate 2026 2 24) (fun _ _ => 3600) "" = Ok evs
    /\ Forall
         (fun ev =>
            match ev_date ev with
            | Some dt =>
                valid_date (dt_date dt) = true
                /\ valid_time (dt_time dt) = true
                /\ (ev_is_all_day ev = true -> dt_time dt = time_min)
            | None => ev_is_all_day ev = false
            end) evs.
Proof.
  assert (H : { evs | parse_economic_calendar (fun _ => Ok table_of_two_days)
                        (mkdate 2026 2 24) (fun _ _ => 3600) "" = Ok evs })
    by (eexists; vm_compute; reflexivity).
  destruct H as [evs H]. exists evs. split; [exact H|].
  apply (emitted_instants_well_formed (fun _ => Ok table_of_two_days)
           (mkdate 2026 2 24) (fun _ _ => 3600) "" evs); [|exact H].
  intros _ _. lia.
Defined.

Lemma dict_put_lookup_ne (k k' : string) (v : option string)
    (m : gmap string string) :
  k <> k' -> dict_put k v m !! k' = m !! k'.
Proof. intros H. destruct v; [apply lookup_insert_ne, H | reflexivity]. Qed.

Lemma dict_put_lookup (k : string) (v : option string)
    (m : gmap string string) :
  m !! k = None -> dict_put k v m !! k = v.
Proof. intros H. destruct v; [apply lookup_insert_eq | exact H]. Qed.

Lemma event_dict_time (ev : Event) : event_dict ev !! "time" = None.
Proof.
  unfold event_dict. rewrite !dict_put_lookup_ne by discriminate.
  apply lookup_empty.
Qed.

Lemma event_dict_event (ev : Event) : event_dict ev !! "event" = ev_event ev.
Proof.
  unfold event_dict. rewrite !dict_put_lookup_ne by discriminate.
  apply dict_put_lookup. rewrite !dict_put_lookup_ne by discriminate.
  apply lookup_empty.
Qed.

Lemma EXCLUDED_event_dict (ev : Event) :
  EXCLUDED (event_dict ev)
  = mkrow None (ev_currency ev) (ev_impact ev) (ev_actual ev)
          (ev_forecast ev) (ev_previous ev).
Proof.
  unfold EXCLUDED. rewrite event_dict_time. unfold event_dict. f_equal.
  - apply dict_put_lookup. rewrite !dict_put_lookup_ne by discriminate.
    apply lookup_empty.
  - rewrite !dict_put_lookup_ne by discriminate.
    apply dict_put_lookup. rewrite !dict_put_lookup_ne by discriminate.
    apply lookup_empty.
  - rewrite !dict_put_lookup_ne by discriminate.
    apply dict_put_lookup. rewrite !dict_put_lookup_ne by discriminate.
    apply lookup_empty.
  - rewrite !dict_put_lookup_ne by discriminate.
    apply dict_put_lookup. rewrite !dict_put_lookup_ne by discriminate.
    apply lookup_empty.
  - rewrite !dict_put_lookup_ne by discriminate.
    apply dict_put_lookup. apply lookup_empty.
Qed.
(** ** Grouping by day *)

Lemma events_of_day_setdefault {A} (by_day : list (date * list A))
    (d day : date) (ev : A) :
  events_of_day (setdefault_append by_day d ev) day =
    if decide (d = day) then (events_of_day by_day day ++ [ev])%list
    else events_of_day by_day day.
Proof.
  unfold events_of_day.
  induction by_day as [|[d0 evs] rest IH]; cbn [setdefault_append find fst snd].
  - destruct (decide (d = day)) as [->|Hne].
    + rewrite bool_decide_eq_true_2 by reflexivity. reflexivity.
    + rewrite bool_decide_eq_false_2 by exact Hne. reflexivity.
  - destruct (decide (d0 = d)) as [->|Hd0]; cbn [find fst snd].
    + destruct (decide (d = day)) as [->|Hne].
      * rewrite bool_decide_eq_true_2 by reflexivity. reflexivity.
      * rewrite bool_decide_eq_false_2 by exact Hne. reflexivity.
    + destruct (decide (d0 = day)) as [->|Hne0].
      * rewrite bool_decide_eq_true_2 by reflexivity.
        destruct (decide (d = day)) as [->|_]; [congruence | reflexivity].
      * rewrite bool_decide_eq_false_2 by exact Hne0. exact IH.
Qed.

Lemma keys_setdefault {A} (by_day : list (date * list A)) (d : date) (ev : A) :
  map fst (setdefault_append by_day d ev) =
    if bool_decide (d ∈ map fst by_day) then map fst by_day
    else (map fst by_day ++ [d])%list.
Proof.
  induction by_day as [|[d0 evs] rest IH]; cbn [setdefault_append map fst].
  - rewrite bool_decide_eq_false_2 by (apply not_elem_of_nil). reflexivity.
  - destruct (decide (d0 = d)) as [->|Hne]; cbn [map fst].
    + rewrite bool_decide_eq_true_2 by (apply elem_of_cons; left; reflexivity).
      reflexivity.
    + rewrite IH. destruct (bool_decide (d ∈ map fst rest)) eqn:Hin.
      * apply bool_decide_eq_true_1 in Hin.
        rewrite bool_decide_eq_true_2 by (apply elem_of_cons; right; exact Hin).
        reflexivity.
      * apply bool_decide_eq_false_1 in Hin.
        rewrite bool_decide_eq_false_2; [reflexivity|].
        intros H. apply elem_of_cons in H as [H|H]; congruence.
Qed.

Lemma group_fold_events_of_day (events : list Event)
    (by_day : list (date * list Event)) (day : date) :
  events_of_day
    (fold_left
       (fun by_day ev =>
          match _parse_day (ev_date ev) with
          | None => by_day
          | Some day => setdefault_append by_day day ev
          end) events by_day) day
  = (events_of_day by_day day
     ++ List.filter
          (fun ev => bool_decide (_parse_day (ev_date ev) = Some day))
          events)%list.
Proof.
  revert by_day. induction events as [|ev events IH]; intros by_day;
    cbn [fold_left List.filter]; [rewrite app_nil_r; reflexivity|].
  rewrite IH. destruct (_parse_day (ev_date ev)) as [d|].
  - rewrite events_of_day_setdefault.
    destruct (decide (d = day)) as [->|Hne].
    + rewrite bool_decide_eq_true_2 by reflexivity.
      rewrite <- app_assoc. reflexivity.
    + rewrite bool_decide_eq_false_2 by congruence. reflexivity.
  - rewrite bool_decide_eq_false_2 by discriminate. reflexivity.
Qed.

Lemma group_fold_keys (events : list Event)
    (by_day : list (date * list Event)) :
  NoDup (map fst by_day) ->
  NoDup (map fst
           (fold_left
              (fun by_day ev =>
                 match _parse_day (ev_date ev) with
                 | None => by_day
                 | Some day => setdefault_append by_day day ev
                 end) events by_day))
  /\ forall day,
       In day (map fst
                 (fold_left
                    (fun by_day ev =>
                       match _parse_day (ev_date ev) with
                       | None => by_day
                       | Some day => setdefault_append by_day day ev
                       end) events by_day))
       <-> In day (map fst by_day)
           \/ exists ev, In ev events /\ _parse_day (ev_date ev) = Some day.
Proof.
  revert by_day. induction events as [|ev events IH]; intros by_day Hnd;
    cbn [fold_left].
  - split; [exact Hnd|]. intros day. split; [tauto|].
    intros [H|(ev & [] & _)]; exact H.
  - destruct (_parse_day (ev_date ev)) as [d|] eqn:Hd.
    + assert (Hnd' : NoDup (map fst (setdefault_append by_day d ev))).
      { rewrite keys_setdefault. destruct (bool_decide _) eqn:Hin; [exact Hnd|].
        apply bool_decide_eq_false_1 in Hin.
        apply NoDup_app. split; [exact Hnd|]. split; [|apply NoDup_singleton].
        intros x Hx Hx'. apply list_elem_of_singleton in Hx'. subst x.
        exact (Hin Hx). }
      destruct (IH _ Hnd') as [H1 H2]. split; [exact H1|].
      intros day. rewrite H2, keys_setdefault.
      destruct (bool_decide (d ∈ map fst by_day)) eqn:Hin.
      * apply bool_decide_eq_true_1, list_elem_of_In in Hin. split.
        -- intros [H|(ev' & Hev' & Hp)]; [tauto|]. right. exists ev'.
           split; [right; exact Hev' | exact Hp].
        -- intros [H|(ev' & [<-|Hev'] & Hp)]; [tauto| |].
           ++ left. congruence.
           ++ right. exists ev'. tauto.
      * rewrite in_app_iff. cbn [In]. split.
        -- intros [[H|[<-|[]]]|(ev' & Hev' & Hp)]; [tauto| |].
           ++ right. exists ev. split; [left; reflexivity | exact Hd].
           ++ right. exists ev'. split; [right; exact Hev' | exact Hp].
        -- intros [H|(ev' & [<-|Hev'] & Hp)]; [tauto| |].
           ++ left. right. left. congruence.
           ++ right. exists ev'. tauto.
    + destruct (IH _ Hnd) as [H1 H2]. split; [exact H1|].
      intros day. rewrite H2. split.
      * intros [H|(ev' & Hev' & Hp)]; [tauto|]. right. exists ev'.
        split; [right; exact Hev' | exact Hp].
      * intros [H|(ev' & [<-|Hev'] & Hp)]; [tauto|congruence|].
        right. exists ev'. tauto.
Qed.

(** X7: the grouping of [sync_economics_calendar] is a stable partition
    of the events that have an instant: the days of the grouped
    dictionary are distinct and are exactly the UTC days on which some
    event falls, and under each day stand the events of that day, all of
    them and in the order in which the parser emitted them.  An event
    without an instant is under no day. *)
Theorem group_by_day_partitions (events : list Event) :
  NoDup (map fst (group_by_day events))
  /\ (forall day,
         In day (map fst (group_by_day events))
         <-> exists ev, In ev events /\ _parse_day (ev_date ev) = Some day)
  /\ forall day,
       events_of_day (group_by_day events) day
       = List.filter
           (fun ev => bool_decide (_parse_day (ev_date ev) = Some day))
           events.
Proof.
  unfold group_by_day.
  destruct (group_fold_keys events [] (NoDup_nil_2 (A := date))) as [H1 H2].
  split; [exact H1|]. split.
  - intros day. rewrite H2. cbn [map In]. split.
    + intros [[]|H]; exact H.
    + intros H. right. exact H.
  - intros day. rewrite group_fold_events_of_day. reflexivity.
Qed.

(** ** The economics sync *)

Lemma events_of_day_In {A} (by_day : list (date * list A)) (d : date)
    (evs : list A) :
  NoDup (map fst by_day) -> In (d, evs) by_day ->
  events_of_day by_day d = evs.
Proof.
  unfold events_of_day. induction by_day as [|[d0 evs0] rest IH];
    cbn [map fst find snd]; intros Hnd Hin; [destruct Hin|].
  apply NoDup_cons in Hnd as [Hd0 Hnd]. destruct Hin as [Heq|Hin].
  - inversion Heq; subst. rewrite bool_decide_eq_true_2 by reflexivity.
    reflexivity.
  - destruct (decide (d0 = d)) as [->|Hne].
    + exfalso. apply Hd0. apply list_elem_of_In.
      apply (in_map fst) in Hin. exact Hin.
    + rewrite bool_decide_eq_false_2 by exact Hne. exact (IH Hnd Hin).
Qed.

Lemma events_of_day_key {A} (by_day : list (date * list A)) (d : date) :
  In d (map fst by_day) -> In (d, events_of_day by_day d) by_day.
Proof.
  unfold events_of_day. induction by_day as [|[d0 evs0] rest IH];
    cbn [map fst find snd]; intros Hin; [destruct Hin|].
  destruct (decide (d0 = d)) as [->|Hne].
  - rewrite bool_decide_eq_true_2 by reflexivity. left. reflexivity.
  - rewrite bool_decide_eq_false_2 by exact Hne. right. apply IH.
    destruct Hin as [?|?]; [congruence | assumption].
Qed.

(** The events written by a sync, each with the day it is filed under. *)
Lemma grouped_batch_In (events : list Event) (d : date)
    (x : gmap string string) :
  In (d, x)
     (batch_events
        (map (fun de => (fst de, map event_dict (snd de)))
             (group_by_day events)))
  <-> exists ev, In ev events /\ _parse_day (ev_date ev) = Some d
                 /\ x = event_dict ev.
Proof.
  unfold group_by_day.
  destruct (group_fold_keys events [] (NoDup_nil_2 (A := date))) as [Hnd Hkeys].
  pose proof (group_fold_events_of_day events []) as Hday.
  set (by_day := fold_left _ events []) in *.
  unfold batch_events. rewrite in_flat_map. split.
  - intros (de' & Hde' & Hx). apply in_map_iff in Hde' as ([d0 evs] & <- & Hde).
    cbn [fst snd] in Hx. apply in_map_iff in Hx as (ev' & Hev' & Hin).
    inversion Hev'; subst; clear Hev'.
    apply in_map_iff in Hin as (ev & <- & Hin).
    rewrite <- (events_of_day_In by_day d evs Hnd Hde), Hday in Hin.
    cbn [app events_of_day find] in Hin.
    apply filter_In in Hin as [Hin Hp]. apply bool_decide_eq_true_1 in Hp.
    exists ev. repeat split; assumption.
  - intros (ev & Hin & Hp & ->).
    assert (Hk : In d (map fst by_day)).
    { apply Hkeys. right. exists ev. split; assumption. }
    apply events_of_day_key in Hk.
    exists (d, map event_dict (events_of_day by_day d)). split.
    + apply in_map_iff. exists (d, events_of_day by_day d).
      split; [reflexivity | exact Hk].
    + cbn [fst snd]. apply in_map. apply in_map.
      rewrite Hday. cbn [app events_of_day find].
      apply filter_In. split; [exact Hin|].
      apply bool_decide_eq_true_2. exact Hp.
Qed.

Lemma row_steps_time (k : date * string)
    (l : list (date * gmap string string)) (stored : option econ_row) :
  (forall x, In x l -> snd x !! "time" = None) ->
  fold_left (row_step k) l stored ≫= r_time = stored ≫= r_time.
Proof.
  revert stored. induction l as [|x l IH]; intros stored Hl; [reflexivity|].
  cbn [fold_left]. rewrite IH by (intros y Hy; apply Hl; right; exact Hy).
  unfold row_step. destruct (Str.truthy (snd x !! "event")); [|reflexivity].
  destruct (decide _); [|reflexivity].
  cbn. unfold EXCLUDED. rewrite (Hl x (or_introl eq_refl)). cbn.
  destruct stored; reflexivity.
Qed.

Lemma row_steps_is_Some (k : date * string)
    (l : list (date * gmap string string)) (stored : option econ_row) :
  is_Some (fold_left (row_step k) l stored)
  <-> is_Some stored
      \/ exists x, In x l
                   /\ Str.truthy (snd x !! "event") = Some (snd k)
                   /\ fst x = fst k.
Proof.
  revert stored. induction l as [|x l IH]; intros stored; cbn [fold_left].
  - split; [tauto|]. intros [H|(x & [] & _)]; exact H.
  - rewrite IH. unfold row_step at 1.
    destruct (Str.truthy (snd x !! "event")) as [n|] eqn:Hn.
    + destruct (decide (k = (fst x, n))) as [->|Hk].
      * split; [|intros _; left; eexists; reflexivity].
        intros _. right. exists x. cbn [fst snd]. split; [left; reflexivity|].
        split; [exact Hn | reflexivity].
      * split.
        -- intros [H|(y & Hy & Hyn & Hyd)]; [tauto|]. right. exists y.
           split; [right; exact Hy | split; assumption].
        -- intros [H|(y & [<-|Hy] & Hyn & Hyd)]; [tauto| |].
           ++ exfalso. apply Hk. rewrite Hn in Hyn. inversion Hyn; subst n.
              rewrite Hyd. destruct k; reflexivity.
           ++ right. exists y. tauto.
    + split.
      * intros [H|(y & Hy & Hyn & Hyd)]; [tauto|]. right. exists y.
        split; [right; exact Hy | split; assumption].
      * intros [H|(y & [<-|Hy] & Hyn & Hyd)]; [tauto|congruence|].
        right. exists y. tauto.
Qed.

(** The table after a sync, key by key. *)
Lemma sync_lookup (curl_get : result response)
    (fromstring : string -> result Element) (tostring : Element -> string)
    (today : date) (_CET : date -> time -> Z)
    (tbl : economics_calendar) (k : date * string) :
  sync_economics_calendar curl_get fromstring tostring today _CET tbl !! k =
    match _fetch_economics_raw curl_get fromstring tostring today _CET with
    | Ok events =>
        fold_left (row_step k)
          (batch_events
             (map (fun de => (fst de, map event_dict (snd de)))
                  (group_by_day events)))
          (tbl !! k)
    | Raise _ => tbl !! k
    end.
Proof.
  unfold sync_economics_calendar.
  destruct (_fetch_economics_raw _ _ _ _ _) as [[|ev events]|]; try reflexivity.
  rewrite write_batch_flat, write_batch_lookup. reflexivity.
Qed.

(** X8: a sync never writes the time column.  The dictionaries of the
    parser have no ["time"] key, so a row the sync inserts has a null
    time and a row it updates keeps the time it had. *)
Theorem sync_never_writes_time (curl_get : result response)
    (fromstring : string -> result Element) (tostring : Element -> string)
    (today : date) (_CET : date -> time -> Z)
    (tbl : economics_calendar) (k : date * string) (row : econ_row) :
  sync_economics_calendar curl_get fromstring tostring today _CET tbl !! k
  = Some row ->
  r_time row = match tbl !! k with
               | Some old => r_time old
               | None => None
               end.
Proof.
  rewrite sync_lookup.
  destruct (_fetch_economics_raw _ _ _ _ _) as [events|].
  - intros H.
    pose proof (row_steps_time k
                  (batch_events
                     (map (fun de => (fst de, map event_dict (snd de)))
                          (group_by_day events))) (tbl !! k)) as Ht.
    rewrite H in Ht. cbn [mbind option_bind] in Ht. rewrite Ht.
    + destruct (tbl !! k); reflexivity.
    + intros [d x] Hx. apply grouped_batch_In in Hx as (ev & _ & _ & ->).
      apply event_dict_time.
  - intros H. rewrite H. reflexivity.
Qed.

(** X9: a sync deletes no row, and the rows it adds are those of the
    fetched events that have an instant and a non-empty title: after the
    sync there is a row under (day, title) exactly when there was one
    before or some fetched event of that title falls on that UTC day. *)
Theorem sync_keys (curl_get : result response)
    (fromstring : string -> result Element) (tostring : Element -> string)
    (today : date) (_CET : date -> time -> Z)
    (tbl : economics_calendar) (day : date) (title : string) :
  is_Some (sync_economics_calendar curl_get fromstring tostring today _CET tbl
           !! (day, title))
  <-> is_Some (tbl !! (day, title))
      \/ exists events ev dt,
           _fetch_economics_raw curl_get fromstring tostring today _CET
           = Ok events
           /\ In ev events
           /\ ev_date ev = Some dt /\ dt_date dt = day
           /\ ev_event ev = Some title /\ title <> "".
Proof.
  rewrite sync_lookup.
  destruct (_fetch_economics_raw _ _ _ _ _) as [events|e].
  - rewrite row_steps_is_Some. cbn [fst snd]. split.
    + intros [H|([d x] & Hx & Hn & Hd)]; [left; exact H|]. right.
      cbn [fst snd] in Hn, Hd. subst d.
      apply grouped_batch_In in Hx as (ev & Hin & Hp & ->).
      rewrite event_dict_event in Hn.
      destruct (ev_date ev) as [dt|] eqn:Hdt; [|discriminate].
      cbn in Hp. inversion Hp; subst day.
      destruct (ev_event ev) as [[|c t]|] eqn:Hev; try discriminate.
      cbn in Hn. inversion Hn; subst title.
      exists events, ev, dt. repeat split; try assumption. discriminate.
    + intros [H|(events' & ev & dt & Heq & Hin & Hdt & Hd & Hev & Hne)];
        [left; exact H|]. right. inversion Heq; subst events'.
      exists (day, event_dict ev). cbn [fst snd]. split; [|split].
      * apply grouped_batch_In. exists ev. rewrite Hdt. cbn. subst day.
        repeat split; assumption.
      * rewrite event_dict_event, Hev. destruct title; [congruence|reflexivity].
      * reflexivity.
  - split; [tauto|]. intros [H|(events & ev & dt & Heq & _)];
      [exact H | discriminate].
Qed.

Example sample_sync_rows :
  sample_sync 200 sample_table !! (mkdate 2026 2 26, "CPI m/m")
  = Some (mkrow (Some "8:30am") (Some "USD") (Some "High") (Some "0.4%")
            (Some "0.3%") (Some "0.2%"))
  /\ sample_sync 200 sample_table !! (mkdate 2026 2 26, "GDP q/q")
     = Some (mkrow None None (Some "Non-Economic") None None None)
  /\ sample_sync 404 sample_table = sample_table.
Proof. vm_compute. repeat split. Qed.

Lemma sync_never_writes_time_witness :
  r_time (mkrow (Some "8:30am") (Some "USD") (Some "High") (Some "0.4%")
            (Some "0.3%") (Some "0.2%"))
  = match sample_table !! (mkdate 2026 2 26, "CPI m/m") with
    | Some old => r_time old
    | None => None
    end.
Proof.
  apply (sync_never_writes_time (Ok (mkresponse 200 "page"))
           (fun _ => Ok (page_of [table_with_fields])) show_element
           (mkdate 2026 2 24) europe_berlin_utcoffset sample_table).
  vm_compute. reflexivity.
Defined.

(** X10: a cycle that fails leaves the table as it was and raises
    nothing: when the transport raises, when the status is not 200, when
    the page does not parse or has no element of class
    [calendar__table], and when the date cell of any row of the table
    does not read as a date.  In the last case the rows before and after
    the malformed one are not written either. *)
Theorem failed_cycle_leaves_table (curl_get : result response)
    (fromstring : string -> result Element) (tostring : Element -> string)
    (today : date) (_CET : date -> time -> Z) (tbl : economics_calendar) :
  (exists e, curl_get = Raise e)
  \/ (exists resp, curl_get = Ok resp /\ status_code resp <> 200)
  \/ (exists resp e, curl_get = Ok resp /\ fromstring (text resp) = Raise e)
  \/ (exists resp doc,
         curl_get = Ok resp /\ fromstring (text resp) = Ok doc
         /\ forall el, In el (Lxml.descendants_or_self doc) ->
                       Lxml.has_class "calendar__table" el = false)
  \/ (exists resp doc table rest doc' pre row post raw e,
         curl_get = Ok resp /\ fromstring (text resp) = Ok doc
         /\ Lxml.find_class doc "calendar__table" = table :: rest
         /\ fromstring (tostring table) = Ok doc'
         /\ Lxml.xpath_tr_data_event_id doc' = (pre ++ row :: post)%list
         /\ first_text row "calendar__date" = Some raw
         /\ Strptime.strptime raw "%a %b %d" = Raise e) ->
  sync_economics_calendar curl_get fromstring tostring today _CET tbl = tbl.
Proof.
  unfold sync_economics_calendar, _fetch_economics_raw.
  intros [(e & ->)|[(resp & -> & Hs)|[(resp & e & -> & Hf)|
          [(resp & doc & -> & Hf & Hnone)|
           (resp & doc & table & rest & doc' & pre & row & post & raw & e
            & -> & Hf & Htab & Hf' & Hrows & Hraw & Hparse)]]]];
    cbn [mbind result_bind]; try reflexivity.
  - destruct (Z.eqb_spec (status_code resp) 200); [contradiction|reflexivity].
  - destruct (negb _); [reflexivity|].
    unfold extract_calendar_table. rewrite Hf. reflexivity.
  - destruct (negb _); [reflexivity|].
    unfold extract_calendar_table. rewrite Hf. cbn [mbind result_bind].
    apply find_class_nil in Hnone. rewrite Hnone. reflexivity.
  - destruct (negb _); [reflexivity|].
    unfold extract_calendar_table. rewrite Hf. cbn [mbind result_bind].
    rewrite Htab. cbn [mbind result_bind].
    unfold parse_economic_calendar. rewrite Hf'. cbn [mbind result_bind].
    rewrite Hrows, scan_rows_app.
    destruct (scan_rows today _CET _ pre) as [st1|]; cbn [mbind result_bind];
      [|reflexivity].
    cbn [scan_rows]. rewrite scan_row_unfold, Hraw.
    rewrite (resolve_date_unparsed today raw e Hparse). reflexivity.
Qed.

Lemma failed_cycle_leaves_table_witness :
  sample_sync 503 sample_table = sample_table.
Proof.
  apply failed_cycle_leaves_table. right. left.
  exists (mkresponse 503 "page"). split; [reflexivity | discriminate].
Defined.

(** X11: a sync is idempotent: running the cycle again on the same
    response and the same day leaves the table as the first run left
    it. *)
Theorem sync_idempotent (curl_get : result response)
    (fromstring : string -> result Element) (tostring : Element -> string)
    (today : date) (_CET : date -> time -> Z) (tbl : economics_calendar) :
  sync_economics_calendar curl_get fromstring tostring today _CET
    (sync_economics_calendar curl_get fromstring tostring today _CET tbl)
  = sync_economics_calendar curl_get fromstring tostring today _CET tbl.
Proof.
  unfold sync_economics_calendar.
  destruct (_fetch_economics_raw _ _ _ _ _) as [[|ev events]|];
    try reflexivity.
  apply write_economics_calendar_idem.
Qed.

(** ** The earnings fetch *)

Lemma fetch_pages_full_then_short (F : Type)
    (get : Z -> option (list (earnings_record F))) (m : nat) :
  forall (k : nat) (fuel : nat) (result : earnings_by_day F)
         (requested : list Z),
    (forall i, (k <= i < k + m)%nat ->
               exists recs, get (100 * Z.of_nat i) = Some recs
                            /\ length recs = 100%nat) ->
    match get (100 * Z.of_nat (k + m)) with
    | Some recs => (length recs < 100)%nat
    | None => True
    end ->
    (m < fuel)%nat ->
    fetch_pages F get fuel (100 * Z.of_nat k) result requested
    = Some (fold_left (add_record F)
              (flat_map (fun i => default [] (get (100 * Z.of_nat i)))
                        (seq k (S m)))
              result,
            (requested ++ map (fun i => 100 * Z.of_nat i) (seq k (S m)))%list).
Proof.
  induction m as [|m IH]; intros k fuel result requested Hfull Hshort Hfuel.
  - destruct fuel as [|fuel]; [lia|]. cbn [fetch_pages seq flat_map map].
    rewrite Nat.add_0_r in Hshort. rewrite app_nil_r.
    destruct (get (100 * Z.of_nat k)) as [recs|]; [|reflexivity].
    cbn [default from_option id].
    destruct (Z.ltb_spec (Z.of_nat (length recs)) 100); [reflexivity|lia].
  - destruct fuel as [|fuel]; [lia|]. cbn [fetch_pages].
    destruct (Hfull k ltac:(lia)) as (recs & Hrecs & Hlen).
    rewrite Hrecs, Hlen. change (Z.of_nat 100 <? 100) with false. cbn iota.
    replace (100 * Z.of_nat k + 100) with (100 * Z.of_nat (S k)) by lia.
    rewrite (IH (S k) fuel).
    + change (seq k (S (S m))) with (k :: seq (S k) (S m)).
      cbn [flat_map map]. rewrite Hrecs. cbn [default from_option id].
      rewrite fold_left_app, <- app_assoc. reflexivity.
    + intros i Hi. apply Hfull. lia.
    + replace (S k + m)%nat with (k + S m)%nat by lia. exact Hshort.
    + lia.
Qed.

(** X12: the earnings fetch stops at the first short page.  When the
    feed gives [n] full pages of 100 rows at the offsets 0, 100, ... and
    then a page of fewer than 100 rows, or none, the loop returns after
    [n + 1] requests, at the offsets 0, 100, ..., 100 n and no other,
    with the rows of those pages taken in order. *)
Theorem pagination_stops_at_short_page (F : Type)
    (get : Z -> option (list (earnings_record F))) (n fuel : nat) :
  (forall i, (i < n)%nat ->
             exists recs, get (100 * Z.of_nat i) = Some recs
                          /\ length recs = 100%nat) ->
  match get (100 * Z.of_nat n) with
  | Some recs => (length recs < 100)%nat
  | None => True
  end ->
  (n < fuel)%nat ->
  _fetch_earnings_raw F get fuel
  = Some (fold_left (add_record F)
            (flat_map (fun i => default [] (get (100 * Z.of_nat i)))
                      (seq 0 (S n)))
            [],
          map (fun i => 100 * Z.of_nat i) (seq 0 (S n))).
Proof.
  intros Hfull Hshort Hfuel. unfold _fetch_earnings_raw.
  change 0 with (100 * Z.of_nat 0).
  rewrite (fetch_pages_full_then_short F get n 0 fuel [] []);
    [reflexivity | | exact Hshort | exact Hfuel].
  intros i Hi. apply Hfull. lia.
Qed.

Lemma pagination_stops_at_short_page_witness :
  snd <$> _fetch_earnings_raw Z sample_feed 3 = Some [0; 100; 200].
Proof.
  rewrite (pagination_stops_at_short_page Z sample_feed 2 3).
  - reflexivity.
  - intros [|[|i]] Hi; [| |lia]; eexists; split; reflexivity.
  - vm_compute. lia.
  - lia.
Defined.

Lemma dict_get_update {K V} `{EqDecision K} (d : list (K * V)) (k k' : K)
    (dflt : V) (f : V -> V) :
  dict_get (dict_setdefault_update d k dflt f) k' =
    if decide (k = k') then Some (f (default dflt (dict_get d k)))
    else dict_get d k'.
Proof.
  induction d as [|[k0 v] rest IH]; cbn [dict_setdefault_update dict_get].
  - destruct (decide (k = k')); reflexivity.
  - destruct (decide (k0 = k)) as [->|Hk0]; cbn [dict_get].
    + destruct (decide (k = k')); reflexivity.
    + rewrite IH. destruct (decide (k0 = k')) as [->|Hk0'].
      * destruct (decide (k = k')); [congruence | reflexivity].
      * reflexivity.
Qed.

Lemma items_of_add_record (F : Type) (result : earnings_by_day F)
    (r : earnings_record F) (day : date) (company : option string) :
  items_of F (add_record F result r) day company =
    (items_of F result day company
     ++ if bool_decide (_to_date (rec_Event_Start_Date F r) = Some day
                        /\ record_company F r = company)
        then [record_item F r] else [])%list.
Proof.
  unfold add_record, items_of. cbn [record_item it_date].
  destruct (_to_date (rec_Event_Start_Date F r)) as [key|].
  - rewrite dict_get_update. destruct (decide (key = day)) as [->|Hk].
    + cbn [default from_option id]. rewrite dict_get_update.
      destruct (decide (record_company F r = company)) as [Hc|Hc].
      * rewrite bool_decide_eq_true_2 by (split; [reflexivity | exact Hc]).
        subst company. reflexivity.
      * rewrite bool_decide_eq_false_2 by (intros [_ ?]; contradiction).
        rewrite app_nil_r. reflexivity.
    + rewrite bool_decide_eq_false_2 by (intros [? _]; congruence).
      rewrite app_nil_r. reflexivity.
  - rewrite bool_decide_eq_false_2 by (intros [? _]; discriminate).
    rewrite app_nil_r. reflexivity.
Qed.

Lemma items_of_fold (F : Type) (records : list (earnings_record F))
    (result : earnings_by_day F) (day : date) (company : option string) :
  items_of F (fold_left (add_record F) records result) day company =
    (items_of F result day company
     ++ map (record_item F)
          (List.filter
             (fun r => bool_decide
                         (_to_date (rec_Event_Start_Date F r) = Some day
                          /\ record_company F r = company))
             records))%list.
Proof.
  revert result. induction records as [|r records IH]; intros result;
    cbn [fold_left List.filter map]; [rewrite app_nil_r; reflexivity|].
  rewrite IH, items_of_add_record. destruct (bool_decide _).
  - rewrite <- app_assoc. reflexivity.
  - rewrite app_nil_r. reflexivity.
Qed.

(** A run that returns has folded the rows of the pages it requested. *)
Lemma fetch_pages_result (F : Type)
    (get : Z -> option (list (earnings_record F))) (fuel : nat) :
  forall offset result requested result' requested',
    fetch_pages F get fuel offset result requested
    = Some (result', requested') ->
    exists offsets,
      requested' = (requested ++ offsets)%list
      /\ result' = fold_left (add_record F)
                     (flat_map (fun o => default [] (get o)) offsets) result.
Proof.
  induction fuel as [|fuel IH]; intros offset result requested result'
    requested'; cbn [fetch_pages]; [discriminate|].
  destruct (get offset) as [recs|] eqn:Hget.
  - destruct (Z.of_nat (length recs) <? 100).
    + intros H; inversion H; subst. exists [offset]. split; [reflexivity|].
      cbn [flat_map]. rewrite Hget, app_nil_r. reflexivity.
    + intros H. apply IH in H as (offsets & -> & ->).
      exists (offset :: offsets). split; [rewrite <- app_assoc; reflexivity|].
      cbn [flat_map]. rewrite Hget, fold_left_app. reflexivity.
  - intros H; inversion H; subst. exists [offset]. split; [reflexivity|].
    cbn [flat_map]. rewrite Hget. reflexivity.
Qed.

(** X13: in the result of the earnings fetch the items under a day and
    a company are those of the fetched rows whose start date falls on
    that day and whose company is that one, all of them and in the order
    of the feed; the company of a row is its ["Company"], or else its
    symbol, and a row without a start date is under no day. *)
Theorem earnings_grouped_by_day_and_company (F : Type)
    (get : Z -> option (list (earnings_record F))) (fuel : nat)
    (result : earnings_by_day F) (requested : list Z) :
  _fetch_earnings_raw F get fuel = Some (result, requested) ->
  forall day company,
    items_of F result day company
    = map (record_item F)
        (List.filter
           (fun r => bool_decide
                       (_to_date (rec_Event_Start_Date F r) = Some day
                        /\ record_company F r = company))
           (flat_map (fun o => default [] (get o)) requested)).
Proof.
  unfold _fetch_earnings_raw. intros H day company.
  apply fetch_pages_result in H as (offsets & -> & ->).
  rewrite items_of_fold. reflexivity.
Qed.

Lemma earnings_grouped_by_day_and_company_witness :
  exists result requested,
    _fetch_earnings_raw Z sample_feed 3 = Some (result, requested)
    /\ length (items_of Z result (mkdate 2026 3 2) (Some "Acme Corp"))
       = 243%nat.
Proof.
  assert (H : { rr | _fetch_earnings_raw Z sample_feed 3 = Some rr })
    by (eexists; vm_compute; reflexivity).
  destruct H as [[result requested] H]. exists result, requested.
  split; [exact H|].
  rewrite (earnings_grouped_by_day_and_company Z sample_feed 3 result
             requested H).
  destruct (fetch_pages_result Z sample_feed 3 0 [] [] result requested H)
    as (offsets & Hreq & _).
  cbn [app] in Hreq. subst requested.
  revert H. vm_compute. intros H. inversion H; subst. reflexivity.
Defined.

(** ** The cells after a sync *)

Lemma col_EXCLUDED_event_dict (c : column) (ev : Event) :
  col c (EXCLUDED (event_dict ev)) = event_col c ev.
Proof. rewrite EXCLUDED_event_dict. destruct c; reflexivity. Qed.

Lemma fold_COALESCE (l : list (option string)) (a : option string) :
  fold_left (fun acc v => COALESCE v acc) l a = COALESCE (last_some l) a.
Proof.
  unfold last_some. revert a. induction l as [|v l IH]; intros a;
    cbn [fold_left]; [reflexivity|].
  destruct v as [s|]; cbn [COALESCE]; [|apply IH].
  rewrite (IH (Some s)).
  destruct (fold_left _ l None); reflexivity.
Qed.

(** The entries of a batch under one day, for a dictionary with distinct
    keys. *)
Lemma flat_map_one_day {A B} (by_day : list (date * list A)) (day : date)
    (h : list A -> list B) :
  NoDup (map fst by_day) -> h [] = [] ->
  flat_map (fun de => if decide (fst de = day) then h (snd de) else [])
           by_day
  = h (events_of_day by_day day).
Proof.
  intros Hnd Hnil. unfold events_of_day.
  induction by_day as [|[d evs] rest IH]; cbn [flat_map find fst snd map];
    [symmetry; exact Hnil|].
  cbn [map fst] in Hnd. apply NoDup_cons in Hnd as [Hd Hnd].
  destruct (decide (d = day)) as [->|Hne].
  - rewrite bool_decide_eq_true_2 by reflexivity. cbn [snd].
    assert (Hrest : flat_map
                      (fun de => if decide (fst de = day) then h (snd de)
                                 else []) rest = []).
    { clear IH. induction rest as [|[d' evs'] rest IH']; [reflexivity|].
      cbn [flat_map fst snd]. cbn [map fst] in Hd, Hnd.
      apply NoDup_cons in Hnd as [_ Hnd].
      destruct (decide (d' = day)) as [->|_].
      - exfalso. apply Hd. apply elem_of_cons. left. reflexivity.
      - cbn [app]. apply IH'; [|exact Hnd].
        intros H. apply Hd. apply elem_of_cons. right. exact H. }
    rewrite Hrest, app_nil_r. reflexivity.
  - rewrite bool_decide_eq_false_2 by exact Hne. cbn [app]. exact (IH Hnd).
Qed.

Lemma filter_flat_map {A B} (f : A -> list B) (p : B -> bool) (l : list A) :
  List.filter p (flat_map f l) = flat_map (fun a => List.filter p (f a)) l.
Proof.
  induction l as [|a l IH]; [reflexivity|].
  cbn [flat_map]. rewrite List.filter_app, IH. reflexivity.
Qed.

Lemma filter_map_comm {A B} (f : A -> B) (p : B -> bool) (l : list A) :
  List.filter p (map f l) = map f (List.filter (fun a => p (f a)) l).
Proof.
  induction l as [|a l IH]; [reflexivity|].
  cbn [map List.filter]. rewrite IH. destruct (p (f a)); reflexivity.
Qed.

(** Only the entries of a batch written under [k] act on the row of [k]. *)
Lemma row_steps_filter (k : date * string)
    (l : list (date * gmap string string)) (stored : option econ_row) :
  fold_left (row_step k) l stored
  = fold_left (row_step k)
      (List.filter
         (fun x => bool_decide (fst x = fst k
                                /\ Str.truthy (snd x !! "event") = Some (snd k)))
         l) stored.
Proof.
  revert stored. induction l as [|x l IH]; intros stored; [reflexivity|].
  cbn [fold_left List.filter].
  destruct (bool_decide _) eqn:Hb.
  - cbn [fold_left]. apply IH.
  - rewrite IH. f_equal. apply bool_decide_eq_false_1 in Hb.
    unfold row_step. destruct (Str.truthy (snd x !! "event")) as [n|];
      [|reflexivity].
    destruct (decide (k = (fst x, n))) as [->|_]; [|reflexivity].
    exfalso. apply Hb. cbn. split; reflexivity.
Qed.

(** The entries of the batch of a sync that are written under a key. *)
Lemma grouped_batch_filter (events : list Event) (day : date)
    (title : string) :
  List.filter
    (fun x => bool_decide (fst x = day
                           /\ Str.truthy (snd x !! "event") = Some title))
    (batch_events
       (map (fun de => (fst de, map event_dict (snd de)))
            (group_by_day events)))
  = map (fun ev => (day, event_dict ev))
        (List.filter (event_has_key day title) events).
Proof.
  unfold group_by_day.
  destruct (group_fold_keys events [] (NoDup_nil_2 (A := date))) as [Hnd _].
  pose proof (group_fold_events_of_day events [] day) as Hday.
  set (by_day := fold_left _ events []) in *.
  unfold batch_events. rewrite flat_map_concat_map, map_map,
    <- flat_map_concat_map, filter_flat_map.
  cbn [fst snd].
  transitivity
    (flat_map
       (fun de : date * list Event =>
          if decide (fst de = day)
          then map (fun ev => (day, event_dict ev))
                 (List.filter
                    (fun ev => bool_decide
                                 (Str.truthy (ev_event ev) = Some title))
                    (snd de))
          else []) by_day).
  - apply flat_map_ext. intros [d evs]. cbn [fst snd].
    rewrite map_map, filter_map_comm. cbn [fst snd].
    destruct (decide (d = day)) as [->|Hne].
    + f_equal. apply List.filter_ext. intros ev.
      rewrite event_dict_event. apply bool_decide_ext. tauto.
    + induction evs as [|ev evs IHevs]; [reflexivity|].
      cbn [List.filter map].
      rewrite bool_decide_eq_false_2 by (intros [? _]; contradiction).
      exact IHevs.
  - rewrite (flat_map_one_day by_day day
               (fun evs => map (fun ev => (day, event_dict ev))
                             (List.filter
                                (fun ev => bool_decide
                                             (Str.truthy (ev_event ev)
                                              = Some title)) evs)))
      by (exact Hnd || reflexivity).
    rewrite Hday. cbn [app events_of_day find]. f_equal.
    clear. induction events as [|ev events IH]; [reflexivity|].
    cbn [List.filter].
    change (event_has_key day title ev)
      with (bool_decide (_parse_day (ev_date ev) = Some day
                         /\ Str.truthy (ev_event ev) = Some title)).
    destruct (decide (_parse_day (ev_date ev) = Some day)) as [Hd|Hd];
      [rewrite (bool_decide_eq_true_2 _ Hd)
      |rewrite (bool_decide_eq_false_2 _ Hd)]; cbn [List.filter].
    + destruct (decide (Str.truthy (ev_event ev) = Some title)) as [Ht|Ht];
        [rewrite (bool_decide_eq_true_2 _ Ht)
        |rewrite (bool_decide_eq_false_2 _ Ht)].
      * rewrite (bool_decide_eq_true_2 _ (conj Hd Ht)). f_equal. exact IH.
      * rewrite bool_decide_eq_false_2 by (intros [_ ?]; contradiction).
        exact IH.
    + rewrite bool_decide_eq_false_2 by (intros [? _]; contradiction).
      exact IH.
Qed.

Lemma row_steps_hits (day : date) (title : string) (evs : list Event)
    (stored : option econ_row) :
  Forall (fun ev => Str.truthy (ev_event ev) = Some title) evs ->
  fold_left (row_step (day, title))
            (map (fun ev => (day, event_dict ev)) evs) stored
  = fold_left
      (fun o ev =>
         Some (do_update (EXCLUDED (event_dict ev)) (default empty_row o)))
      evs stored.
Proof.
  intros HF. revert stored.
  induction HF as [|ev evs Hev _ IH]; intros stored; [reflexivity|].
  cbn [fold_left map]. rewrite IH. f_equal.
  unfold row_step. cbn [fst snd]. rewrite event_dict_event, Hev.
  destruct (decide _) as [_|Hne]; [reflexivity | congruence].
Qed.

Lemma updates_col (c : column) (evs : list Event) (stored : option econ_row) :
  fold_left
    (fun o ev =>
       Some (do_update (EXCLUDED (event_dict ev)) (default empty_row o)))
    evs stored ≫= col c
  = fold_left (fun acc v => COALESCE v acc) (map (event_col c) evs)
              (stored ≫= col c).
Proof.
  revert stored. induction evs as [|ev evs IH]; intros stored; [reflexivity|].
  cbn [fold_left map]. rewrite IH. f_equal. cbn [mbind option_bind].
  rewrite col_do_update, col_EXCLUDED_event_dict. f_equal.
  destruct stored; [reflexivity | destruct c; reflexivity].
Qed.

(** X14: what a sync leaves in each cell.  Under the key (day, title)
    a column holds the last non-null value that the fetched events with
    an instant on that day and that title bring for it, taken in the
    order of the rows of the page, and the value it held before when
    they bring none.  A null never replaces a stored value, and events
    of other keys have no effect on the row. *)
Theorem sync_cells (curl_get : result response)
    (fromstring : string -> result Element) (tostring : Element -> string)
    (today : date) (_CET : date -> time -> Z)
    (tbl : economics_calendar) (events : list Event)
    (day : date) (title : string) (c : column) :
  _fetch_economics_raw curl_get fromstring tostring today _CET = Ok events ->
  sync_economics_calendar curl_get fromstring tostring today _CET tbl
    !! (day, title) ≫= col c
  = COALESCE
      (last_some
         (map (event_col c) (List.filter (event_has_key day title) events)))
      (tbl !! (day, title) ≫= col c).
Proof.
  intros Hfetch. rewrite sync_lookup, Hfetch, row_steps_filter.
  cbn [fst snd]. rewrite grouped_batch_filter, row_steps_hits.
  - rewrite updates_col. apply fold_COALESCE.
  - apply Forall_forall. intros ev Hev. apply list_elem_of_In in Hev.
    apply filter_In in Hev as [_ Hk]. unfold event_has_key in Hk.
    apply bool_decide_eq_true_1 in Hk. tauto.
Qed.

Lemma sync_cells_witness :
  sample_sync 200 sample_table !! (mkdate 2026 2 26, "CPI m/m") ≫= col Previous
  = Some "0.2%"
  /\ sample_sync 200 sample_table !! (mkdate 2026 2 26, "CPI m/m") ≫= col Actual
     = Some "0.4%".
Proof.
  assert (H : { events | _fetch_economics_raw (Ok (mkresponse 200 "page"))
                           (fun _ => Ok (page_of [table_with_fields]))
                           show_element (mkdate 2026 2 24)
                           europe_berlin_utcoffset = Ok events })
    by (eexists; vm_compute; reflexivity).
  destruct H as [events H]. unfold sample_sync.
  rewrite !(sync_cells _ _ _ _ _ sample_table events _ _ _ H).
  revert H. vm_compute. intros H. inversion H; subst events.
  vm_compute. split; reflexivity.
Defined.

